(** * License-code lifecycle and account activation

    A shallow embedding of the backend of the authentication system:
    [app/models/models.py], [app/services/license_service.py] and the routes
    [login.py], [license.py], [verify_license.py] and [signup.py].

    The SQLAlchemy session is modelled as explicit state: the committed
    database, the open transaction as the database has it, the unit of
    work (new and dirty objects, sent by the next flush), the clock and a
    schedule of storage faults.  The driver decides which values a
    statement accepts.  Python exceptions are an outcome of every step,
    and the state survives a raise, as the handlers of the source need it
    ([rollback]).

    The file has the embedding first, then the vocabulary of the properties
    (well-formed databases, the transitions of the stored state, sample
    data), the lemmas (every request moves the stored state along
    transitions, which keep used codes and used grant keys as they are),
    the theorems on validation, activation, the session gate, grant keys and
    creation, and their runs on the sample data. *)

From Stdlib Require Import ZArith List String Bool Lia DecimalString.
Import ListNotations.

Local Open Scope string_scope.
Local Open Scope Z_scope.

(** ** Timestamps ([datetime], [timedelta]) *)

(** The only time zone the source names is [UTC]. *)
Inductive timezone := UTC.

(** A [datetime]: its calendar fields as one number, the microseconds since
    0001-01-01T00:00:00, and the [tzinfo] attribute.  [tzinfo = None] is a
    naive value, [Some UTC] an offset-aware one. *)
Record datetime := mk_datetime { instant : Z; tzinfo : option timezone }.

(** [d.replace(tzinfo=tz)]: same calendar fields, other [tzinfo]. *)
Definition replace_tzinfo (d : datetime) (tz : option timezone) : datetime :=
  mk_datetime (instant d) tz.

Definition us_per_day : Z := 86400 * 1000000.

(** [datetime.max] is 9999-12-31T23:59:59.999999, day 3652059 of the
    proleptic calendar. *)
Definition max_instant : Z := 3652059 * us_per_day.

Definition in_range (t : Z) : bool := (0 <=? t) && (t <? max_instant).

(** ** Exceptions and outcomes *)

(** The exception classes the requests meet.  The texts of the library's
    exceptions are shortened; only their class is looked at, and [str]. *)

Inductive exn :=
| HTTPException (status_code : Z) (detail : string)
| Exception (msg : string)
| TypeError (msg : string)
| OverflowError (msg : string)
| IntegrityError (msg : string)
| OperationalError (msg : string)
| DBAPIError (msg : string).

(** [str(e)] *)
Definition str (e : exn) : string :=
  match e with
  | HTTPException _ d => d
  | Exception m | TypeError m | OverflowError m
  | IntegrityError m | OperationalError m | DBAPIError m => m
  end.

Definition is_HTTPException (e : exn) : bool :=
  match e with HTTPException _ _ => true | _ => false end.

Inductive outcome (A : Type) :=
| Return (a : A)
| Raise (e : exn).
Arguments Return {A} a.
Arguments Raise {A} e.

(** [timedelta(days=d)], as microseconds. *)
Definition timedelta_days (d : Z) : outcome Z :=
  if Z.abs d <=? 999999999 then Return (d * us_per_day)
  else Raise (OverflowError "days; must have magnitude <= 999999999").

(** [d + delta]: the [tzinfo] is kept; leaving year 1..9999 raises. *)
Definition datetime_add (d : datetime) (delta : Z) : outcome datetime :=
  if in_range (instant d + delta)
  then Return (mk_datetime (instant d + delta) (tzinfo d))
  else Raise (OverflowError "date value out of range").

(** [a < b] on a nullable column value and a [datetime]: [None] is not
    ordered, and a naive value is not comparable with an aware one. *)
Definition datetime_lt (a : option datetime) (b : datetime) : outcome bool :=
  match a with
  | None =>
      Raise (TypeError "'<' not supported between instances of 'NoneType' and 'datetime.datetime'")
  | Some a =>
      match tzinfo a, tzinfo b with
      | None, None | Some UTC, Some UTC => Return (instant a <? instant b)
      | _, _ => Raise (TypeError "can't compare offset-naive and offset-aware datetimes")
      end
  end.

(** ** The tables ([models.py]) *)

(** A row holds the attribute values of its ORM object.  A [DateTime]
    column is nullable unless the model says otherwise.  The attribute of
    an object holds the [datetime] the code assigns, with the [tzinfo] it
    has; what reaches the table is what the driver makes of it
    ([bind_DateTime] below). *)

Module User.
Record t := mk {
  id : Z;
  username : string;
  password : string;                  (* hashed *)
  is_active : bool;
  expiration_date : option datetime
}.
Definition set_is_active (v : bool) (u : t) : t :=
  mk (id u) (username u) (password u) v (expiration_date u).
Definition set_expiration_date (v : option datetime) (u : t) : t :=
  mk (id u) (username u) (password u) (is_active u) v.
Definition set_id (v : Z) (u : t) : t :=
  mk v (username u) (password u) (is_active u) (expiration_date u).
End User.

Module License.
Record t := mk {
  id : Z;
  key : string;
  is_used : Z;                        (* Column(Integer, default=0) *)
  duration_days : Z
}.
Definition set_is_used (v : Z) (l : t) : t :=
  mk (id l) (key l) v (duration_days l).
End License.

Module LicenseCode.
Record t := mk {
  id : Z;
  code : string;
  is_used : bool;
  created_at : option datetime;
  expires_at : option datetime;
  used_by : option Z
}.
Definition set_is_used (v : bool) (c : t) : t :=
  mk (id c) (code c) v (created_at c) (expires_at c) (used_by c).
Definition set_used_by (v : option Z) (c : t) : t :=
  mk (id c) (code c) (is_used c) (created_at c) (expires_at c) v.
Definition set_id (v : Z) (c : t) : t :=
  mk v (code c) (is_used c) (created_at c) (expires_at c) (used_by c).
End LicenseCode.

(** The three tables; the rows of a table in the order a [select] without
    [ORDER BY] yields them. *)
Record Database := mk_Database {
  users : list User.t;
  license : list License.t;
  license_codes : list LicenseCode.t
}.

(** *** Queries and updates on the tables *)

(** [select(LicenseCode).filter(LicenseCode.code == code)], first row *)
Definition find_code (code : string) (d : Database) : option LicenseCode.t :=
  find (fun c => String.eqb (LicenseCode.code c) code) (license_codes d).

(** [select(License).where(License.key == key)], first row *)
Definition find_license (key : string) (d : Database) : option License.t :=
  find (fun l => String.eqb (License.key l) key) (license d).

(** [select(User).where(User.username == username)], first row *)
Definition find_username (username : string) (d : Database) : option User.t :=
  find (fun u => String.eqb (User.username u) username) (users d).

(** The row of [users] with the primary key [user_id]. *)
Definition find_user (user_id : Z) (d : Database) : option User.t :=
  find (fun u => User.id u =? user_id) (users d).

(** [UPDATE users SET ... WHERE id = u.id], and the same for the other
    tables: the row with the primary key of the object takes its values. *)
Definition update_user (u : User.t) (d : Database) : Database :=
  mk_Database
    (map (fun r => if User.id r =? User.id u then u else r) (users d))
    (license d) (license_codes d).

Definition update_license (l : License.t) (d : Database) : Database :=
  mk_Database (users d)
    (map (fun r => if License.id r =? License.id l then l else r) (license d))
    (license_codes d).

Definition update_license_code (c : LicenseCode.t) (d : Database) : Database :=
  mk_Database (users d) (license d)
    (map (fun r => if LicenseCode.id r =? LicenseCode.id c then c else r)
         (license_codes d)).

(** ** The database driver *)

(** [core/config.py] takes [DATABASE_URL] from the environment, and with
    it the driver under SQLAlchemy.  Two async drivers are modelled; they
    differ in the values they accept for a parameter of a statement. *)
Inductive driver := aiosqlite | asyncpg.

(** An [int] bound to an [Integer] column or parameter: SQLite's INTEGER
    has 64 bits, PostgreSQL's has 32. *)
Definition INTEGER_ok (dbapi : driver) (n : Z) : bool :=
  match dbapi with
  | aiosqlite => (- 2 ^ 63 <=? n) && (n <? 2 ^ 63)
  | asyncpg => (- 2 ^ 31 <=? n) && (n <? 2 ^ 31)
  end.

Definition out_of_range (dbapi : driver) : exn :=
  match dbapi with
  | aiosqlite => OverflowError "Python int too large to convert to SQLite INTEGER"
  | asyncpg => DBAPIError "value out of int32 range"
  end.

(** A value bound to a [DateTime] column, which has no time zone.  A
    naive value is stored as it is.  Of an offset-aware one aiosqlite
    stores the calendar fields and drops the offset; asyncpg refuses it. *)
Definition bind_DateTime (dbapi : driver) (v : option datetime)
  : outcome (option datetime) :=
  match v with
  | None => Return None
  | Some d =>
      match tzinfo d with
      | None => Return v
      | Some UTC =>
          match dbapi with
          | aiosqlite => Return (Some (replace_tzinfo d None))
          | asyncpg =>
              Raise (DBAPIError
                       "can't subtract offset-naive and offset-aware datetimes")
          end
      end
  end.

(** ** The session ([AsyncSession]) *)

(** The unit of work: a new object waiting for its [INSERT], or a loaded
    object with changed attributes waiting for its [UPDATE]. *)
Inductive pending :=
| NewUser (u : User.t)
| NewLicenseCode (c : LicenseCode.t)
| DirtyUser (u : User.t)
| DirtyLicense (l : License.t)
| DirtyLicenseCode (c : LicenseCode.t).

Record Session := mk_Session {
  stored : Database;          (* what is committed *)
  txn : Database;             (* the open transaction, as the database has it *)
  inserts : list pending;     (* the unit of work: what the next flush sends *)
  clock : Z;                  (* the instant [datetime.now(UTC)] reads now *)
  faults : list bool          (* one flag per storage round trip: [true] fails it *)
}.

Definition M (A : Type) : Type := Session -> outcome A * Session.

Definition ret {A} (a : A) : M A := fun s => (Return a, s).

Definition raise {A} (e : exn) : M A := fun s => (Raise e, s).

Definition bind {A B} (m : M A) (k : A -> M B) : M B :=
  fun s =>
    match m s with
    | (Return a, s') => k a s'
    | (Raise e, s') => (Raise e, s')
    end.

(** [try: m  except ... as e: h e] *)
Definition try_except {A} (m : M A) (h : exn -> M A) : M A :=
  fun s =>
    match m s with
    | (Return a, s') => (Return a, s')
    | (Raise e, s') => h e s'
    end.

(** An outcome of a pure library call, inside the session. *)
Definition lift {A} (o : outcome A) : M A := fun s => (o, s).

Declare Scope session_scope.
Delimit Scope session_scope with session.
Notation "x <- m ;; k" := (bind m (fun x => k))
  (at level 61, m at next level, right associativity) : session_scope.
Notation "' pat <- m ;; k" := (bind m (fun x => match x with pat => k end))
  (at level 61, pat pattern, m at next level, right associativity) : session_scope.
Notation "m ;; k" := (bind m (fun _ => k))
  (at level 61, right associativity) : session_scope.
Local Open Scope session_scope.

(** One round trip to the storage: it fails when the schedule says so. *)
Definition io (what : string) : M unit :=
  fun s =>
    match faults s with
    | [] => (Return tt, s)
    | false :: fs =>
        (Return tt, mk_Session (stored s) (txn s) (inserts s) (clock s) fs)
    | true :: fs =>
        (Raise (OperationalError what),
         mk_Session (stored s) (txn s) (inserts s) (clock s) fs)
    end.

(** [datetime.now(UTC)]: a reading of the clock.  Every request but the
    batch reads it once; between two readings the clock moves ([elapse]). *)
Definition datetime_now_UTC : M datetime :=
  fun s => (Return (mk_datetime (clock s) (Some UTC)), s).

(** Time passes: the clock reads [dt] later. *)
Definition elapse (dt : Z) : M unit :=
  fun s => (Return tt,
            mk_Session (stored s) (txn s) (inserts s) (clock s + dt) (faults s)).

(** [db.execute(select(...))] followed by [.scalars().first()]: one round
    trip, answered from the open transaction. *)
Definition first_license_code (code : string) : M (option LicenseCode.t) :=
  io "select license_codes" ;;
  fun s => (Return (find_code code (txn s)), s).

Definition first_license (key : string) : M (option License.t) :=
  io "select license" ;;
  fun s => (Return (find_license key (txn s)), s).

Definition first_user (username : string) : M (option User.t) :=
  io "select users" ;;
  fun s => (Return (find_username username (txn s)), s).

(** [db.add(obj)]: the object belongs to the unit of work until the
    flush. *)
Definition add_new (p : pending) : M unit :=
  fun s => (Return tt,
            mk_Session (stored s) (txn s) (inserts s ++ [p]) (clock s) (faults s)).

(** A changed attribute of a loaded object makes the object dirty: the
    flush sends its [UPDATE].  (No request of the service reads a table
    again while an object waits in the unit of work.) *)
Definition write_user (u : User.t) : M unit := add_new (DirtyUser u).

Definition write_license (l : License.t) : M unit := add_new (DirtyLicense l).

Definition write_license_code (c : LicenseCode.t) : M unit :=
  add_new (DirtyLicenseCode c).

(** The next value of an autoincrement primary key. *)
Definition next_id (ids : list Z) : Z := 1 + fold_right Z.max 0 ids.

(** One statement of the flush, on the database's side.  An [INSERT]
    checks the unique column and assigns the primary key; an [UPDATE]
    gives the row with the primary key of the object its values. *)
Definition flush_one (p : pending) (d : Database) : outcome Database :=
  match p with
  | NewUser u =>
      match find_username (User.username u) d with
      | Some _ => Raise (IntegrityError "UNIQUE constraint failed: users.username")
      | None =>
          Return (mk_Database
                    (users d ++ [User.set_id (next_id (map User.id (users d))) u])
                    (license d) (license_codes d))
      end
  | NewLicenseCode c =>
      match find_code (LicenseCode.code c) d with
      | Some _ =>
          Raise (IntegrityError "UNIQUE constraint failed: license_codes.code")
      | None =>
          Return (mk_Database (users d) (license d)
                    (license_codes d ++
                     [LicenseCode.set_id
                        (next_id (map LicenseCode.id (license_codes d))) c]))
      end
  | DirtyUser u => Return (update_user u d)
  | DirtyLicense l => Return (update_license l d)
  | DirtyLicenseCode c => Return (update_license_code c d)
  end.

Section Storage.

(** The driver the engine was created with. *)
Variable dbapi : driver.

(** The parameters of one statement of the flush, as the driver binds
    them: the [DateTime] values of a new row, and of a loaded account its
    [expiration_date], the one [DateTime] attribute the requests assign.
    (The timestamps of a loaded code are never assigned, and are not
    sent.) *)
Definition bind_pending (p : pending) : outcome pending :=
  match p with
  | NewUser u =>
      match bind_DateTime dbapi (User.expiration_date u) with
      | Return v => Return (NewUser (User.set_expiration_date v u))
      | Raise e => Raise e
      end
  | NewLicenseCode c =>
      match bind_DateTime dbapi (LicenseCode.created_at c),
            bind_DateTime dbapi (LicenseCode.expires_at c) with
      | Return v, Return w =>
          Return (NewLicenseCode
                    (LicenseCode.mk (LicenseCode.id c) (LicenseCode.code c)
                       (LicenseCode.is_used c) v w (LicenseCode.used_by c)))
      | Raise e, _ => Raise e
      | _, Raise e => Raise e
      end
  | DirtyUser u =>
      match bind_DateTime dbapi (User.expiration_date u) with
      | Return v => Return (DirtyUser (User.set_expiration_date v u))
      | Raise e => Raise e
      end
  | DirtyLicense l => Return p
  | DirtyLicenseCode c => Return p
  end.

Fixpoint flush_all (ps : list pending) (d : Database) : outcome Database :=
  match ps with
  | [] => Return d
  | p :: ps' =>
      match bind_pending p with
      | Return p' =>
          match flush_one p' d with
          | Return d' => flush_all ps' d'
          | Raise e => Raise e
          end
      | Raise e => Raise e
      end
  end.

(** [db.flush()] *)
Definition flush : M unit :=
  io "flush" ;;
  fun s =>
    match flush_all (inserts s) (txn s) with
    | Return d => (Return tt, mk_Session (stored s) d [] (clock s) (faults s))
    | Raise e => (Raise e, s)
    end.

(** [db.commit()]: the flush, then the transaction becomes the stored
    state.  A failure leaves the stored state as it was. *)
Definition commit : M unit :=
  flush ;;
  io "commit" ;;
  fun s => (Return tt, mk_Session (txn s) (txn s) [] (clock s) (faults s)).

(** [db.get(User, user_id)]: the row with this primary key, if there is
    one.  A stored key lies in the range of its column; the driver refuses
    to bind a key outside of it. *)
Definition get_user (user_id : Z) : M (option User.t) :=
  io "get users" ;;
  fun s =>
    match find_user user_id (txn s) with
    | Some u => (Return (Some u), s)
    | None =>
        if INTEGER_ok dbapi user_id then (Return None, s)
        else (Raise (out_of_range dbapi), s)
    end.

(** [db.rollback()]: the transaction is given up. *)
Definition rollback : M unit :=
  fun s => (Return tt, mk_Session (stored s) (stored s) [] (clock s) (faults s)).

(** A request: [get_db] opens a session on the stored database and closes
    it at the end, whatever was not committed is lost. *)
Definition run_request {A} (m : M A) (now : Z) (fs : list bool) (d : Database)
  : outcome A * Database :=
  let '(r, s) := m (mk_Session d d [] now fs) in (r, stored s).

(** [db.refresh(obj)] after the insert: the row is read back by its unique
    column and carries its primary key. *)
Definition refresh_license_code (c : LicenseCode.t) : M LicenseCode.t :=
  io "refresh license_codes" ;;
  fun s =>
    match find_code (LicenseCode.code c) (txn s) with
    | Some r => (Return r, s)
    | None => (Raise (OperationalError "Could not refresh instance"), s)
    end.

Definition refresh_user (u : User.t) : M User.t :=
  io "refresh users" ;;
  fun s =>
    match find_username (User.username u) (txn s) with
    | Some r => (Return r, s)
    | None => (Raise (OperationalError "Could not refresh instance"), s)
    end.

(** ** The code generator ([LicenseService.generate_code]) *)

Definition alphabet : list Ascii.ascii :=
  list_ascii_of_string "ABCDEFGHIJKLMNOPQRSTUVWXYZ0123456789".

(** [secrets.choice(alphabet)], on one draw of the random source. *)
Definition secrets_choice (draw : nat) : Ascii.ascii :=
  nth (Nat.modulo draw (List.length alphabet)) alphabet Ascii.zero.

(** [draws i] is the [i]-th draw of the random source. *)
Definition generate_code (draws : nat -> nat) (length : nat) : string :=
  string_of_list_ascii (map (fun i => secrets_choice (draws i)) (seq 0 length)).

(** ** The services and the routes *)

Section Backend.

(** The collaborators outside the repository: passlib's bcrypt context
    ([core/hashing.py]) and the rendering of [datetime.isoformat]. *)
Variable hash_password : string -> string.
Variable verify_password : string -> string -> bool.
Variable isoformat : datetime -> string.

(** [x.isoformat() if x else None]; a [datetime] is always true. *)
Definition isoformat_or_None (x : option datetime) : option string :=
  match x with
  | Some d => Some (isoformat d)
  | None => None
  end.

(** *** [license_service.py] *)

Definition create_license_code (draws : nat -> nat) (duration_days : Z)
  : M LicenseCode.t :=
  try_except
    (let code := generate_code draws 16 in
     now <- datetime_now_UTC ;;
     let current_time := replace_tzinfo now None in
     delta <- lift (timedelta_days duration_days) ;;
     expires_at <- lift (datetime_add current_time delta) ;;
     let license_code :=
       LicenseCode.mk 0 code false (Some current_time) (Some expires_at) None in
     add_new (NewLicenseCode license_code) ;;
     commit ;;
     refresh_license_code license_code)
    (fun e =>
       rollback ;;
       raise (Exception ("Failed to create license code: " ++ str e))).

Definition validate_code (code : string) : M (bool * string * option string) :=
  try_except
    (license_code <- first_license_code code ;;
     match license_code with
     | None => ret (false, "Invalid license code", None)
     | Some license_code =>
         if LicenseCode.is_used license_code
         then ret (false, "License code already used", None)
         else
           now <- datetime_now_UTC ;;
           let current_time := replace_tzinfo now None in
           expired <- lift (datetime_lt (LicenseCode.expires_at license_code)
                                        current_time) ;;
           if (expired : bool)
           then ret (false, "License code has expired", None)
           else ret (true, "License code is valid",
                     isoformat_or_None (LicenseCode.expires_at license_code))
     end)
    (fun e => raise (Exception ("Failed to validate license code: " ++ str e))).

Definition activate_code (code : string) (user_id : Z)
  : M (bool * string * option string) :=
  try_except
    ('(is_valid, message, _) <- validate_code code ;;
     if negb is_valid then ret (false, message, None)
     else
       license_code <- first_license_code code ;;
       user <- get_user user_id ;;
       match license_code, user with
       | Some license_code, Some user =>
           let license_code := LicenseCode.set_is_used true license_code in
           let license_code := LicenseCode.set_used_by (Some user_id) license_code in
           write_license_code license_code ;;
           let user := User.set_is_active true user in
           let user :=
             User.set_expiration_date (LicenseCode.expires_at license_code) user in
           write_user user ;;
           commit ;;
           ret (true, "License activated successfully",
                isoformat_or_None (LicenseCode.expires_at license_code))
       | _, _ =>
           ret (false,
                "Internal error: License code or user not found after validation.",
                None)
       end)
    (fun e =>
       rollback ;;
       raise (Exception ("Failed to activate license code: " ++ str e))).

(** *** [routes/license.py] *)

Definition generate_license_code (draws : nat -> nat) (duration_days : Z)
  : M LicenseCode.t :=
  try_except (create_license_code draws duration_days)
             (fun e => raise (HTTPException 500 (str e))).

(** The loop of [generate_multiple_codes]: [k] more codes.  The [i]-th
    creation has the draws [draws i]; every creation reads the clock
    anew, and [ticks i] is the time from the reading of the [i]-th
    creation to that of the next. *)
Fixpoint generate_loop (draws : nat -> nat -> nat) (ticks : nat -> Z)
         (i k : nat) (duration_days : Z) : M (list LicenseCode.t) :=
  match k with
  | O => ret []
  | S k' =>
      code <- create_license_code (draws i) duration_days ;;
      elapse (ticks i) ;;
      codes <- generate_loop draws ticks (S i) k' duration_days ;;
      ret (code :: codes)
  end.

Definition generate_multiple_codes (draws : nat -> nat -> nat)
           (ticks : nat -> Z) (count duration_days : Z)
  : M (list LicenseCode.t) :=
  try_except (generate_loop draws ticks 0 (Z.to_nat count) duration_days)
             (fun e => raise (HTTPException 500 (str e))).

Definition validate_license_code (code : string)
  : M (bool * string * option string) :=
  '(is_valid, message, expires_at) <- validate_code code ;;
  if negb is_valid then raise (HTTPException 400 message)
  else ret (is_valid, message, expires_at).

Definition activate_license_code (code : string) (user_id : Z)
  : M (string * option string) :=
  '(success, message, expires_at) <- activate_code code user_id ;;
  if negb success then raise (HTTPException 400 message)
  else ret (message, expires_at).

(** *** [routes/login.py] *)

Inductive login_response :=
| JSONResponse (status_code : Z) (detail : string) (user_id : Z)
| LoginOk (message : string) (expiration_date : option string).

Definition login (username password : string) : M login_response :=
  try_except
    (db_user <- first_user username ;;
     match db_user with
     | None => raise (HTTPException 401 "Invalid Credentials")
     | Some db_user =>
         if negb (verify_password password (User.password db_user))
         then raise (HTTPException 401 "Invalid Credentials")
         else if negb (User.is_active db_user)
         then ret (JSONResponse 403
                     "Account not activated. Please enter activation code."
                     (User.id db_user))
         else
           let success :=
             ret (LoginOk "Login Successful"
                    (isoformat_or_None (User.expiration_date db_user))) in
           match User.expiration_date db_user with
           | Some expiration_date =>
               let aware_expiration_date :=
                 replace_tzinfo expiration_date (Some UTC) in
               now <- datetime_now_UTC ;;
               expired <- lift (datetime_lt (Some aware_expiration_date) now) ;;
               if (expired : bool) then
                 let db_user := User.set_is_active false db_user in
                 let db_user := User.set_expiration_date None db_user in
                 write_user db_user ;;
                 commit ;;
                 ret (JSONResponse 403
                        "Subscription expired. Please renew your license."
                        (User.id db_user))
               else success
           | None => success
           end
     end)
    (fun e =>
       if is_HTTPException e then raise e
       else raise (HTTPException 500 "Internal Server Error")).

(** *** [routes/verify_license.py] *)

Definition verify_license (username key : string) : M (string * string) :=
  try_except
    (license_entry <- first_license key ;;
     match license_entry with
     | None => raise (HTTPException 400 "License key is invalid")
     | Some license_entry =>
         if License.is_used license_entry =? 1
         then raise (HTTPException 400 "License key has already been used")
         else
           user <- first_user username ;;
           match user with
           | None => raise (HTTPException 404 "User not found")
           | Some user =>
               let user := User.set_is_active true user in
               write_user user ;;
               now <- datetime_now_UTC ;;
               delta <- lift (timedelta_days (License.duration_days license_entry)) ;;
               expiration_date <- lift (datetime_add now delta) ;;
               let user := User.set_expiration_date (Some expiration_date) user in
               write_user user ;;
               let license_entry := License.set_is_used 1 license_entry in
               write_license license_entry ;;
               commit ;;
               ret ("Account activated successfully", isoformat expiration_date)
           end
     end)
    (fun e =>
       if is_HTTPException e then raise e
       else raise (HTTPException 500 "Internal Server Error")).

(** *** [routes/signup.py] *)

Definition signup (username password : string) : M (string * Z) :=
  try_except
    (existing_user <- first_user username ;;
     match existing_user with
     | Some _ => raise (HTTPException 409 "Username already exists")
     | None =>
         let hashed_password := hash_password password in
         let new_user := User.mk 0 username hashed_password false None in
         add_new (NewUser new_user) ;;
         flush ;;
         commit ;;
         new_user <- refresh_user new_user ;;
         ret ("User Created Successfully", User.id new_user)
     end)
    (fun e =>
       if is_HTTPException e then raise e
       else raise (HTTPException 500 "Internal Server Error")).

(** *** The service as a state machine *)

(** The requests that reach the database.  ([/license/list] only reads.) *)
Inductive request :=
| Signup (username password : string)
| Login (username password : string)
| VerifyLicense (username key : string)
| Generate (draws : nat -> nat) (duration_days : Z)
| GenerateBatch (draws : nat -> nat -> nat) (ticks : nat -> Z)
                (count duration_days : Z)
| Validate (code : string)
| Activate (code : string) (user_id : Z).

(** A request as the server meets it: what the clock reads when the
    request first asks for it, and the storage faults it runs into. *)
Record event := mk_event {
  ev_request : request;
  ev_now : Z;
  ev_faults : list bool
}.

(** The database a request leaves behind. *)
Definition handle (e : event) (d : Database) : Database :=
  let now := ev_now e in
  let fs := ev_faults e in
  match ev_request e with
  | Signup u p => snd (run_request (signup u p) now fs d)
  | Login u p => snd (run_request (login u p) now fs d)
  | VerifyLicense u k => snd (run_request (verify_license u k) now fs d)
  | Generate draws days =>
      snd (run_request (generate_license_code draws days) now fs d)
  | GenerateBatch draws ticks count days =>
      snd (run_request (generate_multiple_codes draws ticks count days) now fs d)
  | Validate code => snd (run_request (validate_license_code code) now fs d)
  | Activate code user_id =>
      snd (run_request (activate_license_code code user_id) now fs d)
  end.

(** The requests of a history, one after the other. *)
Definition serve (es : list event) (d : Database) : Database :=
  fold_left (fun d e => handle e d) es d.

(** [n] validation requests in a row, at the same clock: their outcomes and
    the database they leave. *)
Fixpoint validate_requests (n : nat) (code : string) (now : Z) (d : Database)
  : list (outcome (bool * string * option string)) * Database :=
  match n with
  | O => ([], d)
  | S n' =>
      let '(r, d1) := run_request (validate_code code) now [] d in
      let '(rs, d2) := validate_requests n' code now d1 in
      (r :: rs, d2)
  end.

End Backend.

End Storage.

(** ** The listing route ([routes/license.py]) *)

Section Listing.

Variable dbapi : driver.

(** What the database answers to a negative [OFFSET] or [LIMIT]: an error
    in some databases, no bound in others. *)
Variable negative_page :
  Z -> Z -> list LicenseCode.t -> outcome (list LicenseCode.t).

(** [select(LicenseCode).offset(skip).limit(limit)], all rows of the answer.
    The route has the defaults [skip = 0] and [limit = 100].  Both are
    parameters of the statement, which the driver binds as integers. *)
Definition list_license_codes (skip limit : Z) : M (list LicenseCode.t) :=
  if INTEGER_ok dbapi skip && INTEGER_ok dbapi limit then
    io "select license_codes" ;;
    fun s =>
      (if (0 <=? skip) && (0 <=? limit)
       then Return (firstn (Z.to_nat limit)
                      (skipn (Z.to_nat skip) (license_codes (txn s))))
       else negative_page skip limit (license_codes (txn s)), s)
  else raise (out_of_range dbapi).

End Listing.

(** ** The desktop client ([frontend/]) *)

(** [str(n)] of an [int], as in an f-string. *)
Definition string_of_Z (n : Z) : string := NilEmpty.string_of_int (Z.to_int n).

(** The offset that [center_window] gives a window of size [size] on a
    screen of size [screen], on either axis. *)
Definition center_offset (screen size : Z) : Z := screen / 2 - size / 2.

(** [LicenseDialog.center_window] ([frontend/license.py]): the geometry it
    sets, from the size of the screen and of the window. *)
Definition center_window (screen_width screen_height width height : Z) : string :=
  let x := center_offset screen_width width in
  let y := center_offset screen_height height in
  string_of_Z width ++ "x" ++ string_of_Z height
  ++ "+" ++ string_of_Z x ++ "+" ++ string_of_Z y.

(** [a - b] on two [datetime]s, in microseconds: a naive and an aware value
    cannot be subtracted. *)
Definition datetime_sub (a b : datetime) : outcome Z :=
  match tzinfo a, tzinfo b with
  | None, None | Some UTC, Some UTC => Return (instant a - instant b)
  | _, _ => Raise (TypeError "can't subtract offset-naive and offset-aware datetimes")
  end.

Section Countdown.

(** [datetime.fromisoformat], which raises [ValueError] on a text it does
    not read. *)
Variable fromisoformat : string -> outcome datetime.

(** [MainAppUI.update_countdown] ([frontend/index.py]): the text it shows
    for the expiration [expiration_date] when the local clock,
    [datetime.now()], a naive value, reads [now]. *)
Definition update_countdown (expiration_date : string) (now : Z) : string :=
  match fromisoformat expiration_date with
  | Raise _ => "Unknown expiration"
  | Return expire_dt =>
      match datetime_sub expire_dt (mk_datetime now None) with
      | Raise _ => "Unknown expiration"
      | Return delta =>
          (* [delta.total_seconds() > 0] *)
          if 0 <? delta then
            (* the normal form of a [timedelta]: days, seconds, microseconds *)
            let days := delta / us_per_day in
            let delta_seconds := (delta mod us_per_day) / 1000000 in
            let hours := delta_seconds / 3600 in
            let rem := delta_seconds mod 3600 in
            let minutes := rem / 60 in
            let seconds := rem mod 60 in
            "Time left: " ++ string_of_Z days ++ "d " ++ string_of_Z hours ++ "h "
            ++ string_of_Z minutes ++ "m " ++ string_of_Z seconds ++ "s"
          else "Expired!"
      end
  end.

End Countdown.

(** What the login view shows next. *)
Inductive view :=
| MainApp (expiration_date : option string)
| LicenseDialog (username : string) (user_id : Z)
| MessageBox (title text : string)
| ErrorLabel (text : string).

(** The body of a response, as the client reads it with [.get]. *)
Record response_data := mk_response_data {
  rd_detail : option string;
  rd_user_id : option Z;
  rd_expiration_date : option string
}.

(** The response the client receives for what the login route returns or
    raises: a returned dict is a 200, a [JSONResponse] carries its status
    and content, an [HTTPException] its status and a body with [detail]. *)
Definition login_http (r : outcome login_response) : Z * response_data :=
  match r with
  | Return (LoginOk _ expiration_date) =>
      (200, mk_response_data None None expiration_date)
  | Return (JSONResponse status_code detail user_id) =>
      (status_code, mk_response_data (Some detail) (Some user_id) None)
  | Raise e =>
      match e with
      | HTTPException status_code detail =>
          (status_code, mk_response_data (Some detail) None None)
      | _ => (500, mk_response_data None None None)
      end
  end.

(** [needle in hay] on two [str]. *)
Definition contains (needle hay : string) : bool :=
  match index 0 needle hay with
  | Some _ => true
  | None => false
  end.

Section LoginView.

(** [str.lower] *)
Variable lower : string -> string.

(** [LoginView._handle_login_error] ([frontend/login.py]) *)
Definition _handle_login_error (data : response_data) : view :=
  ErrorLabel (match rd_detail data with Some d => d | None => "Login failed" end).

(** [LoginView._handle_activation_required]; [username_entry] is the text
    of the username field. *)
Definition _handle_activation_required (username_entry : string)
           (data : response_data) : view :=
  let detail_msg := match rd_detail data with Some d => d | None => "" end in
  if contains "activation code" (lower detail_msg) then
    match rd_user_id data with
    | Some user_id =>
        (* [if user_id:], an [int] *)
        if user_id =? 0
        then MessageBox "Login Error" "Could not retrieve user ID for activation."
        else LicenseDialog username_entry user_id
    | None => MessageBox "Login Error" "Could not retrieve user ID for activation."
    end
  else _handle_login_error data.

(** [LoginView.login_action] once the response is there: the branch on the
    status code.  (The remember-me file is left out.) *)
Definition login_action_response (username_entry : string)
           (response : Z * response_data) : view :=
  let '(status_code, data) := response in
  if status_code =? 200 then MainApp (rd_expiration_date data)
  else if status_code =? 403 then _handle_activation_required username_entry data
  else _handle_login_error data.

End LoginView.

(** * Vocabulary of the properties *)

(** ** Well-formed databases *)

(** No value twice: a primary key. *)
Fixpoint distinct (l : list Z) : bool :=
  match l with
  | [] => true
  | x :: l' => negb (existsb (Z.eqb x) l') && distinct l'
  end.

(** A stored timestamp in the convention of the service: present and
    without offset. *)
Definition is_naive (x : option datetime) : bool :=
  match x with
  | Some d => match tzinfo d with None => true | Some _ => false end
  | None => false
  end.

(** The naive timestamp of the instant [t]. *)
Definition naive (t : Z) : option datetime := Some (mk_datetime t None).

Definition code_ok (c : LicenseCode.t) : bool :=
  is_naive (LicenseCode.created_at c) && is_naive (LicenseCode.expires_at c).

(** The license codes carry the timestamps [create_license_code] gives them. *)
Definition codes_ok (d : Database) : bool := forallb code_ok (license_codes d).

(** The schema ([id] is the primary key of [license_codes] and of
    [license]) and the timestamps of the codes. *)
Definition wf_db (d : Database) : bool :=
  distinct (map LicenseCode.id (license_codes d))
  && distinct (map License.id (license d))
  && codes_ok d.

(** ** Computations that only read *)

(** Nothing of the session changes but the fault schedule, which every
    round trip consumes. *)
Definition read_only {A} (m : M A) : Prop :=
  forall s,
    stored (snd (m s)) = stored s /\ txn (snd (m s)) = txn s /\
    inserts (snd (m s)) = inserts s /\ clock (snd (m s)) = clock s.

(** ** The transitions of the stored state *)

Definition pending_ok (p : pending) : bool :=
  match p with
  | NewUser _ => true
  | NewLicenseCode c => code_ok c
  | _ => false
  end.

(** The changes a commit of the service makes to the database: an insert,
    new values for a user, the redemption of an unused code, the
    consumption of a grant key. *)
Inductive transition : Database -> Database -> Prop :=
| t_insert (p : pending) (d d' : Database) :
    pending_ok p = true -> flush_one p d = Return d' -> transition d d'
| t_user (u : User.t) (d : Database) :
    transition d (update_user u d)
| t_redeem (c : LicenseCode.t) (user_id : Z) (d : Database) :
    In c (license_codes d) -> LicenseCode.is_used c = false ->
    transition d
      (update_license_code
         (LicenseCode.set_used_by (Some user_id) (LicenseCode.set_is_used true c)) d)
| t_grant (l : License.t) (d : Database) :
    In l (license d) ->
    transition d (update_license (License.set_is_used 1 l) d).

Inductive reach : Database -> Database -> Prop :=
| reach_refl (d : Database) : reach d d
| reach_step (d1 d2 d3 : Database) :
    reach d1 d2 -> transition d2 d3 -> reach d1 d3.

(** ** Sample data *)

Module Sample.

(** Stand-ins for the collaborators, to run the model on concrete data. *)
Definition hash_password (plain : string) : string := "hash:" ++ plain.

Definition verify_password (plain hashed : string) : bool :=
  String.eqb (hash_password plain) hashed.

Definition isoformat (d : datetime) : string :=
  match tzinfo d with
  | None => "naive"
  | Some UTC => "aware+00:00"
  end.

Definition draws (i : nat) : nat := i.

(** 2025-01-01T00:00:00, day 739252 of the calendar. *)
Definition T0 : Z := 739251 * us_per_day.

Definition days (n : Z) : Z := n * us_per_day.

Definition alice : User.t := User.mk 1 "alice" "hash:secret" false None.

Definition K : License.t := License.mk 1 "K" 0 30.

(** One registered, never activated account and one unused grant key. *)
Definition db0 : Database := mk_Database [alice] [K] [].

Definition code0 : LicenseCode.t :=
  LicenseCode.mk 1 "ABCDEFGHIJKLMNOP" false
    (Some (mk_datetime T0 None)) (Some (mk_datetime (T0 + days 30) None)) None.

(** [db0] after a code with 30 days was generated at [T0]. *)
Definition db1 : Database := mk_Database [alice] [K] [code0].

Definition code0_used : LicenseCode.t :=
  LicenseCode.set_used_by (Some 1) (LicenseCode.set_is_used true code0).

Definition alice_active : User.t :=
  User.set_expiration_date (LicenseCode.expires_at code0)
    (User.set_is_active true alice).

(** [db1] after alice redeemed the code. *)
Definition db2 : Database := mk_Database [alice_active] [K] [code0_used].

Definition alice_granted : User.t :=
  User.set_expiration_date (Some (mk_datetime (T0 + days 30) None))
    (User.set_is_active true alice).

(** [db0] after alice consumed the grant key at [T0], on aiosqlite. *)
Definition db3 : Database :=
  mk_Database [alice_granted] [License.set_is_used 1 K] [].

(** Later requests: a second account is registered and tries the used code
    and the used key, a code is generated while the storage fails, alice
    logs in after her expiration. *)
Definition history : list event :=
  [ mk_event (Signup "bob" "hunter2") (T0 + days 2) [];
    mk_event (Activate "ABCDEFGHIJKLMNOP" 2) (T0 + days 2) [];
    mk_event (VerifyLicense "bob" "K") (T0 + days 2) [];
    mk_event (Generate (fun i => 2 * i)%nat 7) (T0 + days 3) [false; true];
    mk_event (GenerateBatch (fun i j => 5 * i + j + 1)%nat (fun _ => 250) 2 7)
             (T0 + days 3) [];
    mk_event (Validate "ABCDEFGHIJKLMNOP") (T0 + days 4) [];
    mk_event (Login "alice" "secret") (T0 + days 31) [] ].

(** The database after the later requests. *)
Definition served (d : Database) : Database :=
  serve aiosqlite hash_password verify_password isoformat history d.

Definition login_as (username password : string) : M login_response :=
  login aiosqlite verify_password isoformat username password.

(** Stand-ins for the collaborators of the listing and of the client:
    a database that refuses a negative [OFFSET] or [LIMIT], [str.lower] on
    the letters A to Z, and a [fromisoformat] that reads three texts. *)
Definition negative_page (skip limit : Z) (rows : list LicenseCode.t)
  : outcome (list LicenseCode.t) :=
  Raise (OperationalError "negative OFFSET or LIMIT").

Definition lower_ascii (a : Ascii.ascii) : Ascii.ascii :=
  let n := Ascii.nat_of_ascii a in
  if ((65 <=? n) && (n <=? 90))%nat then Ascii.ascii_of_nat (n + 32) else a.

Definition lower (s : string) : string :=
  string_of_list_ascii (map lower_ascii (list_ascii_of_string s)).

Definition fromisoformat (s : string) : outcome datetime :=
  if String.eqb s "2025-01-31T00:00:00"
  then Return (mk_datetime (T0 + days 30) None)
  else if String.eqb s "2025-01-31T00:00:00+00:00"
  then Return (mk_datetime (T0 + days 30) (Some UTC))
  else Raise (Exception "Invalid isoformat string").

(** A grant key whose duration is out of the range of [timedelta]. *)
Definition K_long : License.t := License.mk 2 "L" 0 1000000000.

Definition db4 : Database := mk_Database [alice] [K; K_long] [code0].

(** A random source that repeats itself from one creation to the next. *)
Definition stuck_draws (i j : nat) : nat := (j + 1)%nat.

(** A storage that takes a quarter of a millisecond for one creation. *)
Definition ticks (i : nat) : Z := 250.

End Sample.

(** ** The steps of the stored state, row by row *)

(** A value of a [DateTime] column without offset; a [NULL] has none. *)
Definition no_offset (x : option datetime) : bool :=
  match x with
  | Some d => match tzinfo d with None => true | Some _ => false end
  | None => true
  end.

(** What one commit of the service does to the rows: a registration, a new
    code, new values for an account that keep its identity and come out of
    the driver, the redemption of an unused code, the consumption of a
    grant key. *)
Inductive step : Database -> Database -> Prop :=
| s_signup (u : User.t) (d : Database) :
    find_username (User.username u) d = None ->
    User.is_active u = false -> User.expiration_date u = None ->
    step d (mk_Database
              (users d ++ [User.set_id (next_id (map User.id (users d))) u])
              (license d) (license_codes d))
| s_create (c : LicenseCode.t) (d : Database) :
    find_code (LicenseCode.code c) d = None ->
    code_ok c = true ->
    LicenseCode.is_used c = false -> LicenseCode.used_by c = None ->
    step d (mk_Database (users d) (license d)
              (license_codes d ++
               [LicenseCode.set_id (next_id (map LicenseCode.id (license_codes d))) c]))
| s_user (u u' : User.t) (d : Database) :
    In u (users d) ->
    User.id u' = User.id u -> User.username u' = User.username u ->
    User.password u' = User.password u ->
    no_offset (User.expiration_date u') = true ->
    step d (update_user u' d)
| s_redeem (c : LicenseCode.t) (user_id : Z) (d : Database) :
    In c (license_codes d) -> LicenseCode.is_used c = false ->
    step d
      (update_license_code
         (LicenseCode.set_used_by (Some user_id) (LicenseCode.set_is_used true c)) d)
| s_grant (l : License.t) (d : Database) :
    In l (license d) ->
    step d (update_license (License.set_is_used 1 l) d).

Inductive path : Database -> Database -> Prop :=
| path_refl (d : Database) : path d d
| path_step (d1 d2 d3 : Database) : path d1 d2 -> step d2 d3 -> path d1 d3.

(** ** The constraints of the schema *)

(** No string twice: a unique column. *)
Fixpoint unique (l : list string) : bool :=
  match l with
  | [] => true
  | x :: l' => negb (existsb (String.eqb x) l') && unique l'
  end.

(** The primary keys and the unique columns of [models.py]. *)
Definition schema_ok (d : Database) : bool :=
  distinct (map User.id (users d))
  && distinct (map License.id (license d))
  && distinct (map LicenseCode.id (license_codes d))
  && unique (map User.username (users d))
  && unique (map License.key (license d))
  && unique (map LicenseCode.code (license_codes d)).




(** [used_by] is set exactly on the used codes. *)
Definition redemption_ok (c : LicenseCode.t) : bool :=
  Bool.eqb (LicenseCode.is_used c)
           (match LicenseCode.used_by c with Some _ => true | None => false end).

Definition redemptions_ok (d : Database) : bool :=
  forallb redemption_ok (license_codes d).

(** What stays of a row: an account keeps its identity and its secret, a
    code its token and its timestamps, and once used all its values, a
    grant key its key and its duration, and once used all its values. *)
Definition user_kept (u u' : User.t) : Prop :=
  User.id u' = User.id u /\ User.username u' = User.username u /\
  User.password u' = User.password u.

Definition code_kept (c c' : LicenseCode.t) : Prop :=
  LicenseCode.id c' = LicenseCode.id c /\
  LicenseCode.code c' = LicenseCode.code c /\
  LicenseCode.created_at c' = LicenseCode.created_at c /\
  LicenseCode.expires_at c' = LicenseCode.expires_at c /\
  (LicenseCode.is_used c = true -> c' = c).

Definition license_kept (l l' : License.t) : Prop :=
  License.id l' = License.id l /\ License.key l' = License.key l /\
  License.duration_days l' = License.duration_days l /\
  (License.is_used l = 1 -> l' = l).

Definition rows_kept (d d' : Database) : Prop :=
  (forall u, In u (users d) -> exists u', In u' (users d') /\ user_kept u u') /\
  (forall c, In c (license_codes d) ->
             exists c', In c' (license_codes d') /\ code_kept c c') /\
  (forall l, In l (license d) -> exists l', In l' (license d') /\ license_kept l l').

(** ** Rows and databases the requests produce *)

(** An uppercase letter or a digit. *)
Definition upper_or_digit (a : Ascii.ascii) : bool :=
  let n := Ascii.nat_of_ascii a in
  ((65 <=? n) && (n <=? 90) || (48 <=? n) && (n <=? 57))%nat.

(** The row [create_license_code] inserts. *)
Definition created_code (draws : nat -> nat) (duration_days now : Z)
           (d : Database) : LicenseCode.t :=
  LicenseCode.mk (next_id (map LicenseCode.id (license_codes d)))
    (generate_code draws 16) false
    (naive now) (naive (now + duration_days * us_per_day)) None.

Definition with_code (c : LicenseCode.t) (d : Database) : Database :=
  mk_Database (users d) (license d) (license_codes d ++ [c]).

(** The account and the database after the grant key [l] was redeemed for
    the account [u] at [now]: the expiration as it is stored, without its
    offset. *)
Definition granted (l : License.t) (now : Z) (u : User.t) : User.t :=
  User.set_expiration_date
    (naive (now + License.duration_days l * us_per_day))
    (User.set_is_active true u).

Definition with_grant (l : License.t) (now : Z) (u : User.t) (d : Database)
  : Database :=
  update_license (License.set_is_used 1 l) (update_user (granted l now u) d).

(** The account and the database after the code [c] was redeemed for the
    account [u]. *)
Definition redeemed_by (c : LicenseCode.t) (u : User.t) : User.t :=
  User.set_expiration_date (LicenseCode.expires_at c) (User.set_is_active true u).

Definition with_redemption (c : LicenseCode.t) (u : User.t) (d : Database)
  : Database :=
  update_user (redeemed_by c u)
    (update_license_code
       (LicenseCode.set_used_by (Some (User.id u)) (LicenseCode.set_is_used true c))
       d).

(** The account [signup] inserts, and the database with one more account
    or one more code. *)
Definition registered (username hashed : string) (d : Database) : User.t :=
  User.mk (next_id (map User.id (users d))) username hashed false None.

Definition with_user (u : User.t) (d : Database) : Database :=
  mk_Database (users d ++ [u]) (license d) (license_codes d).

(** A code as [create_license_code] stores it at [clk] for [days] days. *)
Definition fresh_code (clk days : Z) (c : LicenseCode.t) : Prop :=
  LicenseCode.is_used c = false /\ LicenseCode.used_by c = None /\
  LicenseCode.created_at c = naive clk /\
  LicenseCode.expires_at c = naive (clk + days * us_per_day).


(** The clock readings of a batch: the [i]-th creation reads [clk], and
    [k] creations follow one another. *)
Fixpoint readings (ticks : nat -> Z) (i k : nat) (clk : Z) : list Z :=
  match k with
  | O => []
  | S k' => clk :: readings ticks (S i) k' (clk + ticks i)
  end.

(** The codes [cs] were created one after the other, at the first readings
    of [ts]. *)
Definition created_at_readings (days : Z) (ts : list Z) (cs : list LicenseCode.t)
  : Prop :=
  Forall2 (fun t c => fresh_code t days c) (firstn (List.length cs) ts) cs.

(** * Lemmas *)

(** ** Lookups after an update *)

Section Lookup.
Context {A : Type}.

(** The first row with [p] is replaced by [a'], which still has [p]: it
    is what the lookup finds afterwards. *)
Lemma find_map_hit (p q : A -> bool) (a' : A) (l : list A) (a : A) :
  find p l = Some a -> q a = true -> p a' = true ->
  find p (map (fun r => if q r then a' else r) l) = Some a'.
Proof.
  intros Hf Hq Hp. induction l as [|x l IH]; cbn in *; [discriminate|].
  destruct (p x) eqn:Hpx.
  - injection Hf as ->. now rewrite Hq, Hp.
  - destruct (q x); [now rewrite Hp|]. rewrite Hpx. auto.
Qed.

(** An update that does not change what [p] says of any row commutes
    with the lookup. *)
Lemma find_map_same (p : A -> bool) (f : A -> A) (l : list A) :
  (forall r, In r l -> p (f r) = p r) ->
  find p (map f l) = option_map f (find p l).
Proof.
  induction l as [|x l IH]; intros H; cbn; [reflexivity|].
  rewrite (H x (or_introl eq_refl)).
  destruct (p x); [reflexivity|].
  apply IH. intros r Hr. apply H. now right.
Qed.

Lemma find_app_hit (p : A -> bool) (l l' : list A) (a : A) :
  find p l = Some a -> find p (l ++ l') = Some a.
Proof.
  induction l as [|x l IH]; cbn; [discriminate|].
  destruct (p x); auto.
Qed.

Lemma find_app_miss (p : A -> bool) (l l' : list A) :
  find p l = None -> find p (l ++ l') = find p l'.
Proof.
  induction l as [|x l IH]; cbn; [reflexivity|].
  destruct (p x); [discriminate|auto].
Qed.

(** A key without duplicates identifies its row. *)
Lemma NoDup_key_inj (key : A -> Z) (l : list A) (a b : A) :
  NoDup (map key l) -> In a l -> In b l -> key a = key b -> a = b.
Proof.
  induction l as [|x l IH]; cbn; intros Hnd Ha Hb Hk; [contradiction|].
  inversion Hnd as [|? ? Hx Hnd']; subst.
  destruct Ha as [->|Ha], Hb as [->|Hb]; auto.
  - exfalso. apply Hx. rewrite Hk. now apply in_map.
  - exfalso. apply Hx. rewrite <- Hk. now apply in_map.
Qed.
End Lookup.

(** ** Primary keys and stored timestamps *)

Lemma distinct_NoDup (l : list Z) : distinct l = true -> NoDup l.
Proof.
  induction l as [|x l IH]; cbn; intros H; [constructor|].
  apply andb_prop in H. destruct H as [Hx Hl].
  constructor; [|auto].
  intros Hin. apply negb_true_iff in Hx.
  assert (E : existsb (Z.eqb x) l = true)
    by (apply existsb_exists; exists x; split; [assumption|apply Z.eqb_refl]).
  congruence.
Qed.

Lemma NoDup_distinct (l : list Z) : NoDup l -> distinct l = true.
Proof.
  induction 1 as [|x l Hx _ IH]; cbn; [reflexivity|].
  rewrite IH, andb_true_r. apply negb_true_iff.
  destruct (existsb (Z.eqb x) l) eqn:E; [|reflexivity].
  apply existsb_exists in E. destruct E as [y [Hy Hxy]].
  apply Z.eqb_eq in Hxy. subst. contradiction.
Qed.

Lemma codes_ok_find (d : Database) (code : string) (c : LicenseCode.t) :
  codes_ok d = true -> find_code code d = Some c ->
  exists t, LicenseCode.expires_at c = Some (mk_datetime t None).
Proof.
  unfold codes_ok, find_code. intros Hok Hf.
  apply find_some in Hf. destruct Hf as [Hin _].
  rewrite forallb_forall in Hok. specialize (Hok _ Hin). unfold code_ok in Hok.
  apply andb_prop in Hok. destruct Hok as [_ Hok].
  destruct (LicenseCode.expires_at c) as [[t [[]|]]|]; try discriminate.
  now exists t.
Qed.

Lemma wf_db_codes_ok (d : Database) : wf_db d = true -> codes_ok d = true.
Proof. unfold wf_db. intros H. now apply andb_prop in H. Qed.

(** ** Running a request by hand *)

(** The steps of the session monad, to be unfolded when a request is run
    on a symbolic database. *)
Ltac unfold_session :=
  cbv beta delta
    [run_request try_except bind ret raise lift io datetime_now_UTC elapse
     first_license_code first_license first_user get_user
     write_user write_license write_license_code add_new
     flush commit rollback refresh_license_code refresh_user].

(** One step of a run: compute, or split on the next storage fault. *)
Ltac run_step :=
  progress cbn
  || match goal with
     | |- context [match ?fs with [] => _ | _ :: _ => _ end] =>
         is_var fs; destruct fs as [|[|] ?]
     end.

(** ** Computations that only read *)

Lemma read_only_ret {A} (a : A) : read_only (ret a).
Proof. intros s. cbn. auto. Qed.

Lemma read_only_raise {A} (e : exn) : read_only (@raise A e).
Proof. intros s. cbn. auto. Qed.

Lemma read_only_lift {A} (o : outcome A) : read_only (lift o).
Proof. intros s. cbn. auto. Qed.

Lemma read_only_io (what : string) : read_only (io what).
Proof. intros s. unfold io. destruct (faults s) as [|[|] fs]; cbn; auto. Qed.

Lemma read_only_now : read_only datetime_now_UTC.
Proof. intros s. cbn. auto. Qed.

Lemma read_only_bind {A B} (m : M A) (k : A -> M B) :
  read_only m -> (forall a, read_only (k a)) -> read_only (bind m k).
Proof.
  intros Hm Hk s. unfold bind. specialize (Hm s).
  destruct (m s) as [[a|e] s1]; cbn in *; [|assumption].
  destruct (Hk a s1) as (H1 & H2 & H3 & H4).
  destruct Hm as (G1 & G2 & G3 & G4).
  repeat split; congruence.
Qed.

Lemma read_only_try_except {A} (m : M A) (h : exn -> M A) :
  read_only m -> (forall e, read_only (h e)) -> read_only (try_except m h).
Proof.
  intros Hm Hh s. unfold try_except. specialize (Hm s).
  destruct (m s) as [[a|e] s1]; cbn in *; [assumption|].
  destruct (Hh e s1) as (H1 & H2 & H3 & H4).
  destruct Hm as (G1 & G2 & G3 & G4).
  repeat split; congruence.
Qed.

Lemma read_only_first_license_code (code : string) :
  read_only (first_license_code code).
Proof.
  apply read_only_bind; [apply read_only_io|].
  intros _ s. cbn. auto.
Qed.

Create HintDb read_only.
#[export] Hint Resolve read_only_ret read_only_raise read_only_lift read_only_io
  read_only_now read_only_first_license_code : read_only.


(** ** The transitions keep the database well formed *)

Arguments next_id : simpl never.

Lemma next_id_above (ids : list Z) (x : Z) : In x ids -> x < next_id ids.
Proof.
  unfold next_id. induction ids as [|y ids IH]; cbn [In fold_right]; [contradiction|].
  intros [->|H]; [lia|]. specialize (IH H). lia.
Qed.

Lemma distinct_snoc_next_id (ids : list Z) :
  distinct ids = true -> distinct (ids ++ [next_id ids]) = true.
Proof.
  intros H. apply NoDup_distinct. apply distinct_NoDup in H.
  apply NoDup_app; [assumption|repeat constructor; intros []|].
  intros x Hx [<-|[]]. apply next_id_above in Hx. lia.
Qed.

Lemma map_key_update {A} (key : A -> Z) (a : A) (l : list A) :
  map key (map (fun r => if key r =? key a then a else r) l) = map key l.
Proof.
  induction l as [|x l IH]; cbn; [reflexivity|]. rewrite IH. f_equal.
  destruct (Z.eqb_spec (key x) (key a)); congruence.
Qed.

Lemma transition_wf (d d' : Database) :
  transition d d' -> wf_db d = true -> wf_db d' = true.
Proof.
  unfold wf_db, codes_ok.
  intros T H. apply andb_prop in H. destruct H as [H Hok].
  apply andb_prop in H. destruct H as [Hc Hl].
  destruct T as [p d d' Hp Hf | u d | c uid d Hin Hu | l d Hin].
  - destruct p as [u|c|?|?|?]; try discriminate Hp; cbn in Hf.
    + destruct (find_username (User.username u) d); [discriminate|].
      injection Hf as <-. cbn. now rewrite Hc, Hl, Hok.
    + destruct (find_code (LicenseCode.code c) d); [discriminate|].
      injection Hf as <-. cbn [license_codes license users]. rewrite map_app.
      cbn [map LicenseCode.id LicenseCode.set_id].
      rewrite (distinct_snoc_next_id _ Hc), Hl, forallb_app, Hok. cbn.
      cbn in Hp. unfold code_ok in *. cbn. now rewrite Hp.
  - cbn. now rewrite Hc, Hl, Hok.
  - unfold update_license_code. cbn [license_codes license users].
    rewrite (map_key_update LicenseCode.id), Hc, Hl. cbn [andb].
    rewrite forallb_forall in *. intros x Hx.
    apply in_map_iff in Hx. destruct Hx as [r [<- Hr]].
    destruct (LicenseCode.id r =? _); [|auto].
    specialize (Hok c Hin). unfold code_ok in *. exact Hok.
  - unfold update_license. cbn [license_codes license users].
    rewrite (map_key_update License.id), Hc, Hl. exact Hok.
Qed.

Lemma wf_db_code_ids (d : Database) :
  wf_db d = true -> NoDup (map LicenseCode.id (license_codes d)).
Proof.
  unfold wf_db. intros H. apply andb_prop in H. destruct H as [H _].
  apply andb_prop in H. destruct H as [H _]. now apply distinct_NoDup.
Qed.

Lemma wf_db_license_ids (d : Database) :
  wf_db d = true -> NoDup (map License.id (license d)).
Proof.
  unfold wf_db. intros H. apply andb_prop in H. destruct H as [H _].
  apply andb_prop in H. destruct H as [_ H]. now apply distinct_NoDup.
Qed.

(** A redeemed code is out of reach of every transition. *)
Lemma transition_used_code (d d' : Database) (code : string) (c : LicenseCode.t) :
  transition d d' -> wf_db d = true ->
  find_code code d = Some c -> LicenseCode.is_used c = true ->
  find_code code d' = Some c.
Proof.
  intros T Hwf Hf Hu.
  destruct T as [p d d' Hp Hfl | u d | c0 uid d Hin Hu0 | l d Hin];
    try exact Hf.
  - destruct p as [u|c0|?|?|?]; try discriminate Hp; cbn in Hfl.
    + destruct (find_username (User.username u) d); [discriminate|].
      injection Hfl as <-. exact Hf.
    + destruct (find_code (LicenseCode.code c0) d); [discriminate|].
      injection Hfl as <-. unfold find_code in *. cbn.
      now apply find_app_hit.
  - pose proof (wf_db_code_ids d Hwf) as Hnd.
    unfold find_code, update_license_code in *. cbn [license_codes].
    rewrite find_map_same.
    + rewrite Hf. cbn.
      destruct (Z.eqb_spec (LicenseCode.id c) (LicenseCode.id c0)) as [E|E];
        [|reflexivity].
      apply find_some in Hf. destruct Hf as [Hc _].
      assert (c = c0)
        by (apply (NoDup_key_inj LicenseCode.id (license_codes d)); auto).
      congruence.
    + intros r Hr. cbn.
      destruct (Z.eqb_spec (LicenseCode.id r) (LicenseCode.id c0)) as [E|E];
        [|reflexivity].
      assert (r = c0)
        by (apply (NoDup_key_inj LicenseCode.id (license_codes d)); auto).
      now subst.
Qed.

(** A consumed grant key is out of reach of every transition. *)
Lemma transition_used_license (d d' : Database) (key : string) (l : License.t) :
  transition d d' -> wf_db d = true ->
  find_license key d = Some l -> License.is_used l = 1 ->
  find_license key d' = Some l.
Proof.
  intros T Hwf Hf Hu.
  destruct T as [p d d' Hp Hfl | u d | c0 uid d Hin Hu0 | l0 d Hin];
    try exact Hf.
  - destruct p as [u|c0|?|?|?]; try discriminate Hp; cbn in Hfl.
    + destruct (find_username (User.username u) d); [discriminate|].
      injection Hfl as <-. exact Hf.
    + destruct (find_code (LicenseCode.code c0) d); [discriminate|].
      injection Hfl as <-. exact Hf.
  - pose proof (wf_db_license_ids d Hwf) as Hnd.
    unfold find_license, update_license in *. cbn [license].
    rewrite find_map_same.
    + rewrite Hf. cbn.
      destruct (Z.eqb_spec (License.id l) (License.id l0)) as [E|E];
        [|reflexivity].
      apply find_some in Hf. destruct Hf as [Hl _].
      assert (l = l0)
        by (apply (NoDup_key_inj License.id (license d)); auto).
      subst l0. destruct l; cbn in *. now subst.
    + intros r Hr. cbn.
      destruct (Z.eqb_spec (License.id r) (License.id l0)) as [E|E];
        [|reflexivity].
      assert (r = l0)
        by (apply (NoDup_key_inj License.id (license d)); auto).
      now subst.
Qed.

Lemma reach_trans (d1 d2 d3 : Database) :
  reach d1 d2 -> reach d2 d3 -> reach d1 d3.
Proof.
  intros H12 H23. revert H12.
  induction H23 as [|d2 d3 d4 _ IH T]; intros H12; [assumption|].
  apply (reach_step d1 d3 d4); auto.
Qed.

Lemma reach_wf (d d' : Database) :
  reach d d' -> wf_db d = true -> wf_db d' = true.
Proof.
  induction 1 as [|d1 d2 d3 _ IH T]; intros Hwf; [assumption|].
  eapply transition_wf; eauto.
Qed.

Lemma reach_used_code (d d' : Database) (code : string) (c : LicenseCode.t) :
  reach d d' -> wf_db d = true ->
  find_code code d = Some c -> LicenseCode.is_used c = true ->
  find_code code d' = Some c.
Proof.
  induction 1 as [|d1 d2 d3 R IH T]; intros Hwf Hf Hu; [assumption|].
  eapply transition_used_code; eauto using reach_wf.
Qed.

Lemma reach_used_license (d d' : Database) (key : string) (l : License.t) :
  reach d d' -> wf_db d = true ->
  find_license key d = Some l -> License.is_used l = 1 ->
  find_license key d' = Some l.
Proof.
  induction 1 as [|d1 d2 d3 R IH T]; intros Hwf Hf Hu; [assumption|].
  eapply transition_used_license; eauto using reach_wf.
Qed.

(** ** Every request moves the stored state along transitions *)

Arguments find_code : simpl never.
Arguments find_license : simpl never.
Arguments find_username : simpl never.
Arguments find_user : simpl never.
Arguments generate_code : simpl never.
Arguments us_per_day : simpl never.

(** Split on the data the run is waiting for. *)
Ltac split_data :=
  match goal with
  | |- context [match ?x with _ => _ end] =>
      match x with
      | find_code _ _ => idtac
      | find_user _ _ => idtac
      | find_username _ _ => idtac
      | find_license _ _ => idtac
      | timedelta_days _ => idtac
      | datetime_add _ _ => idtac
      | datetime_lt _ _ => idtac
      | bind_DateTime _ _ => idtac
      | tzinfo _ => idtac
      | INTEGER_ok _ _ => idtac
      | LicenseCode.is_used _ => idtac
      | User.is_active _ => idtac
      | User.expiration_date _ => idtac
      | negb _ => idtac
      | is_HTTPException _ => idtac
      | (_ =? _) => idtac
      | (_ <? _) => idtac
      | (_ <=? _) => idtac
      | (_ && _)%bool => idtac
      | in_range _ => idtac
      | _ => is_var x
      end;
      destruct x eqn:?
  end.

Ltac run_all := repeat (run_step || split_data).

Ltac same_row :=
  repeat match goal with
         | H : Some _ = Some _ |- _ => injection H as ->
         | H : find_code _ _ = Some _ |- _ => apply find_some in H; destruct H as [H _]
         | H : find_license _ _ = Some _ |- _ => apply find_some in H; destruct H as [H _]
         end.

Lemma bind_run {A B} (m : M A) (k : A -> M B) (s : Session) :
  bind m k s =
  match m s with
  | (Return a, s') => k a s'
  | (Raise e, s') => (Raise e, s')
  end.
Proof. reflexivity. Qed.

Section Refinement.

Variable dbapi : driver.
Variable hash_password : string -> string.
Variable verify_password : string -> string -> bool.
Variable isoformat : datetime -> string.

Lemma validate_reach (code : string) (now : Z) (fs : list bool) (d : Database) :
  snd (run_request (validate_license_code isoformat code) now fs d) = d.
Proof.
  unfold validate_license_code, validate_code. unfold_session.
  run_all; reflexivity.
Qed.

Lemma activate_reach (code : string) (user_id now : Z) (fs : list bool)
      (d : Database) :
  reach d (snd (run_request (activate_license_code dbapi isoformat code user_id) now fs d)).
Proof.
  unfold activate_license_code, activate_code, validate_code. unfold_session.
  run_all; try apply reach_refl.
  all: same_row.
  all: eapply reach_step; [eapply reach_step; [apply reach_refl|]|apply t_user].
  all: now apply t_redeem.
Qed.

Lemma login_reach (username password : string) (now : Z) (fs : list bool)
      (d : Database) :
  reach d (snd (run_request (login dbapi verify_password isoformat username password) now fs d)).
Proof.
  unfold login. unfold_session.
  run_all; try apply reach_refl.
  all: eapply reach_step; [apply reach_refl|apply t_user].
Qed.

Lemma verify_license_reach (username key : string) (now : Z) (fs : list bool)
      (d : Database) :
  reach d (snd (run_request (verify_license dbapi isoformat username key) now fs d)).
Proof.
  unfold verify_license. unfold_session.
  run_all; try apply reach_refl.
  all: same_row.
  all: eapply reach_step;
    [eapply reach_step; [eapply reach_step; [apply reach_refl|apply t_user]
                        |apply t_user]|].
  all: now apply t_grant.
Qed.

Lemma signup_reach (username password : string) (now : Z) (fs : list bool)
      (d : Database) :
  reach d (snd (run_request (signup dbapi hash_password username password) now fs d)).
Proof.
  unfold signup. unfold_session.
  run_all; try apply reach_refl.
  all: eapply reach_step; [apply reach_refl|].
  all: match goal with
       | |- transition _ (mk_Database (_ ++ [User.set_id _ ?u]) _ _) =>
           apply (t_insert (NewUser u)); [reflexivity|]
       end.
  all: cbn; match goal with H : find_username _ _ = None |- _ => now rewrite H end.
Qed.

(** [create_license_code] in a session without open changes: it ends
    without open changes, on a stored state one insert away at most. *)
Lemma create_license_code_settled (draws : nat -> nat) (days : Z)
      (st : Database) (clk : Z) (fs : list bool) :
  let s' := snd (create_license_code dbapi draws days (mk_Session st st [] clk fs)) in
  txn s' = stored s' /\ inserts s' = [] /\ clock s' = clk /\ reach st (stored s').
Proof.
  unfold create_license_code, timedelta_days, datetime_add. unfold_session.
  run_all; repeat split; try apply reach_refl.
  all: eapply reach_step; [apply reach_refl|].
  all: match goal with
       | |- transition _ (mk_Database _ _ (_ ++ [LicenseCode.set_id _ ?c])) =>
           apply (t_insert (NewLicenseCode c)); [reflexivity|]
       end.
  all: cbn; match goal with H : find_code _ _ = None |- _ => now rewrite H end.
Qed.

Lemma generate_loop_settled (draws : nat -> nat -> nat) (ticks : nat -> Z)
      (days : Z) (k : nat) :
  forall (i : nat) (st : Database) (clk : Z) (fs : list bool),
    let s' := snd (generate_loop dbapi draws ticks i k days (mk_Session st st [] clk fs)) in
    txn s' = stored s' /\ inserts s' = [] /\ reach st (stored s').
Proof.
  induction k as [|k IH]; intros i st clk fs; cbv zeta.
  - cbn. repeat split. apply reach_refl.
  - cbn [generate_loop]. rewrite bind_run.
    pose proof (create_license_code_settled (draws i) days st clk fs) as H.
    cbv zeta in H.
    destruct (create_license_code dbapi (draws i) days (mk_Session st st [] clk fs))
      as [[c|e] [st1 tx1 ins1 clk1 fs1]]; cbn in H;
      destruct H as (-> & -> & -> & Hreach).
    + rewrite bind_run. cbn [elapse stored txn inserts clock faults].
      rewrite bind_run.
      specialize (IH (S i) st1 (clk + ticks i) fs1). cbv zeta in IH.
      destruct (generate_loop dbapi draws ticks (S i) k days
                  (mk_Session st1 st1 [] (clk + ticks i) fs1))
        as [[cs|e] s2]; cbn in *;
        destruct IH as (H1 & H2 & H3);
        repeat split; eauto using reach_trans.
    + cbn. repeat split. assumption.
Qed.

Lemma generate_reach (draws : nat -> nat) (days now : Z) (fs : list bool)
      (d : Database) :
  reach d (snd (run_request (generate_license_code dbapi draws days) now fs d)).
Proof.
  unfold generate_license_code, run_request, try_except.
  pose proof (create_license_code_settled draws days d now fs) as H.
  cbn zeta in H.
  destruct (create_license_code dbapi draws days (mk_Session d d [] now fs))
    as [[c|e] s]; cbn in *; tauto.
Qed.

Lemma generate_multiple_reach (draws : nat -> nat -> nat) (ticks : nat -> Z)
      (count days now : Z)
      (fs : list bool) (d : Database) :
  reach d (snd (run_request (generate_multiple_codes dbapi draws ticks count days) now fs d)).
Proof.
  unfold generate_multiple_codes, run_request, try_except.
  pose proof (generate_loop_settled draws ticks days (Z.to_nat count) 0 d now fs) as H.
  cbn zeta in H.
  destruct (generate_loop dbapi draws ticks 0 (Z.to_nat count) days (mk_Session d d [] now fs))
    as [[c|e] s]; cbn in *; tauto.
Qed.

Lemma handle_reach (e : event) (d : Database) :
  reach d (handle dbapi hash_password verify_password isoformat e d).
Proof.
  unfold handle. destruct (ev_request e).
  - apply signup_reach.
  - apply login_reach.
  - apply verify_license_reach.
  - apply generate_reach.
  - apply generate_multiple_reach.
  - rewrite validate_reach. apply reach_refl.
  - apply activate_reach.
Qed.

Lemma serve_reach (es : list event) (d : Database) :
  reach d (serve dbapi hash_password verify_password isoformat es d).
Proof.
  unfold serve. revert d.
  induction es as [|e es IH]; intros d; cbn; [apply reach_refl|].
  eapply reach_trans; [apply handle_reach|apply IH].
Qed.

(** Well-formedness is an invariant of the service, from the empty
    database on. *)
Lemma wf_db_empty : wf_db (mk_Database [] [] []) = true.
Proof. reflexivity. Qed.

Lemma serve_wf (es : list event) (d : Database) :
  wf_db d = true ->
  wf_db (serve dbapi hash_password verify_password isoformat es d) = true.
Proof. apply reach_wf, serve_reach. Qed.

End Refinement.

(** * Theorems *)

Section Properties.

Variable dbapi : driver.
Variable hash_password : string -> string.
Variable verify_password : string -> string -> bool.
Variable isoformat : datetime -> string.

(** Use what is known of the data the run is waiting for. *)
Ltac use_known :=
  match goal with
  | H : ?x = _ |- context [?x] =>
      lazymatch x with
      | find_code _ _ => idtac
      | find_user _ _ => idtac
      | find_username _ _ => idtac
      | find_license _ _ => idtac
      | LicenseCode.is_used _ => idtac
      | LicenseCode.expires_at _ => idtac
      | License.is_used _ => idtac
      | User.is_active _ => idtac
      | User.expiration_date _ => idtac
      | (_ <? _) => idtac
      | (_ <=? _) => idtac
      | in_range _ => idtac
      | tzinfo _ => idtac
      | INTEGER_ok _ _ => idtac
      | verify_password _ _ => idtac
      end;
      rewrite H
  end.

Ltac run_known := repeat (run_step || use_known).


(** *** Validation *)

Lemma validate_code_read_only (code : string) :
  read_only (validate_code isoformat code).
Proof.
  unfold validate_code.
  apply read_only_try_except; [|auto with read_only].
  apply read_only_bind; [auto with read_only|].
  intros [c|]; [|auto with read_only].
  destruct (LicenseCode.is_used c); [auto with read_only|].
  apply read_only_bind; [auto with read_only|]. intros now.
  apply read_only_bind; [auto with read_only|].
  intros [|]; auto with read_only.
Qed.

Lemma validate_code_stored (code : string) (now : Z) (fs : list bool)
      (d : Database) :
  snd (run_request (validate_code isoformat code) now fs d) = d.
Proof.
  unfold run_request.
  pose proof (validate_code_read_only code (mk_Session d d [] now fs)) as H.
  destruct (validate_code isoformat code (mk_Session d d [] now fs)) as [r s].
  cbn in *. tauto.
Qed.

(** The run of [validate_code] without storage faults, on codes whose
    timestamps are stored in the convention of the service. *)
Lemma validate_code_run (d : Database) (code : string) (now : Z) :
  codes_ok d = true ->
  run_request (validate_code isoformat code) now [] d =
  (Return
     match find_code code d with
     | None => (false, "Invalid license code", None)
     | Some c =>
         if LicenseCode.is_used c
         then (false, "License code already used", None)
         else
           match LicenseCode.expires_at c with
           | Some e =>
               if instant e <? now
               then (false, "License code has expired", None)
               else (true, "License code is valid", Some (isoformat e))
           | None => (true, "License code is valid", None)
           end
     end, d).
Proof.
  intros Hok. unfold validate_code. unfold_session. cbn.
  destruct (find_code code d) as [c|] eqn:Hf; cbn; [|reflexivity].
  destruct (LicenseCode.is_used c); cbn; [reflexivity|].
  destruct (codes_ok_find _ _ _ Hok Hf) as [t ->]. cbn.
  destruct (t <? now); reflexivity.
Qed.

(** C4: [validate_code] decides in this order: no stored code matches, the
    code is used, its [expires_at] is earlier than now, and otherwise the
    code is valid and its [expires_at] is echoed.  The outcome is one of
    these four, and only the last carries an expiration. *)
Theorem validate_code_outcomes (d : Database) (code : string) (now : Z) :
  wf_db d = true ->
  let r := run_request (validate_code isoformat code) now [] d in
  (find_code code d = None ->
   r = (Return (false, "Invalid license code", None), d)) /\
  (forall c, find_code code d = Some c -> LicenseCode.is_used c = true ->
   r = (Return (false, "License code already used", None), d)) /\
  (forall c e, find_code code d = Some c -> LicenseCode.is_used c = false ->
   LicenseCode.expires_at c = Some e -> instant e < now ->
   r = (Return (false, "License code has expired", None), d)) /\
  (forall c e, find_code code d = Some c -> LicenseCode.is_used c = false ->
   LicenseCode.expires_at c = Some e -> now <= instant e ->
   r = (Return (true, "License code is valid", Some (isoformat e)), d)) /\
  (r = (Return (false, "Invalid license code", None), d) \/
   r = (Return (false, "License code already used", None), d) \/
   r = (Return (false, "License code has expired", None), d) \/
   exists e, r = (Return (true, "License code is valid", Some (isoformat e)), d)).
Proof.
  intros Hwf r. apply wf_db_codes_ok in Hwf.
  subst r. rewrite (validate_code_run d code now Hwf).
  repeat split.
  - now intros ->.
  - intros c -> Hu. now rewrite Hu.
  - intros c e -> Hu -> Hlt. rewrite Hu.
    apply Z.ltb_lt in Hlt. now rewrite Hlt.
  - intros c e -> Hu -> Hge. rewrite Hu.
    apply Z.ltb_ge in Hge. now rewrite Hge.
  - destruct (find_code code d) as [c|] eqn:Hf; [|now left].
    destruct (LicenseCode.is_used c); [now right; left|].
    destruct (codes_ok_find _ _ _ Hwf Hf) as [t ->]. cbn.
    destruct (t <? now); [now right; right; left|].
    right; right; right. now eexists.
Qed.

(** C3: [validate_code] changes nothing of the session and nothing stored,
    whatever the storage does; any number of validation requests at the
    same clock have the same outcome and leave the database, and with it
    [is_used], as it was. *)
Theorem validate_code_pure (code : string) :
  read_only (validate_code isoformat code) /\
  (forall now fs d,
     snd (run_request (validate_code isoformat code) now fs d) = d) /\
  (forall n now d,
     validate_requests isoformat n code now d =
     (repeat (fst (run_request (validate_code isoformat code) now [] d)) n, d)) /\
  (forall now fs d,
     option_map LicenseCode.is_used
       (find_code code (snd (run_request (validate_code isoformat code) now fs d)))
     = option_map LicenseCode.is_used (find_code code d)).
Proof.
  split; [apply validate_code_read_only|].
  split; [apply validate_code_stored|].
  split.
  - induction n as [|n IH]; intros now d; cbn [validate_requests repeat];
      [reflexivity|].
    pose proof (validate_code_stored code now [] d) as H.
    destruct (run_request (validate_code isoformat code) now [] d)
      as [r d1] eqn:E.
    cbn in H. subst d1. now rewrite IH, E.
  - intros now fs d. now rewrite validate_code_stored.
Qed.

(** *** Activation *)

(** C1: a code that passes the checks, redeemed for an existing account:
    the code is marked used by the account, the account is active until the
    code's [expires_at], which is returned; whatever the storage does, the
    request ends with all four changes stored or with none of them. *)
Theorem activate_code_atomic (d : Database) (code : string) (user_id now : Z)
        (c : LicenseCode.t) (e : datetime) (u : User.t) :
  find_code code d = Some c ->
  LicenseCode.is_used c = false ->
  LicenseCode.expires_at c = Some e ->
  tzinfo e = None ->
  now <= instant e ->
  find_user user_id d = Some u ->
  let c' := LicenseCode.set_used_by (Some user_id) (LicenseCode.set_is_used true c) in
  let u' := User.set_expiration_date (Some e) (User.set_is_active true u) in
  let d' := update_user u' (update_license_code c' d) in
  let done := Return (true, "License activated successfully", Some (isoformat e)) in
  run_request (activate_code dbapi isoformat code user_id) now [] d = (done, d') /\
  find_code code d' = Some c' /\
  LicenseCode.is_used c' = true /\ LicenseCode.used_by c' = Some user_id /\
  find_user user_id d' = Some u' /\
  User.is_active u' = true /\ User.expiration_date u' = LicenseCode.expires_at c /\
  forall fs,
    run_request (activate_code dbapi isoformat code user_id) now fs d = (done, d') \/
    exists x, run_request (activate_code dbapi isoformat code user_id) now fs d = (Raise x, d).
Proof.
  intros Hc Hu He Htz Hnow Hus c' u' d' done.
  assert (Hlt : (instant e <? now) = false) by (apply Z.ltb_ge; lia).
  assert (Hrun : forall fs,
    run_request (activate_code dbapi isoformat code user_id) now fs d = (done, d') \/
    exists x, run_request (activate_code dbapi isoformat code user_id) now fs d = (Raise x, d)).
  { intros fs. subst done d' u' c'.
    unfold activate_code, validate_code. unfold_session.
    run_known; try (left; reflexivity); right; eexists; reflexivity. }
  split.
  { destruct (Hrun []) as [H|[x H]]; [exact H|].
    exfalso. revert H. subst done d' u' c'.
    unfold activate_code, validate_code. unfold_session.
    run_known. discriminate. }
  repeat split; try assumption; try reflexivity.
  - unfold find_code, d', update_user, update_license_code in *.
    cbn [license_codes].
    apply (find_map_hit _ (fun r => LicenseCode.id r =? LicenseCode.id c') c' _ c);
      [assumption|apply Z.eqb_refl|].
    apply find_some in Hc. apply Hc.
  - unfold find_user, d', update_user, update_license_code in *.
    cbn [users].
    apply (find_map_hit _ (fun r => User.id r =? User.id u') u' _ u);
      [assumption|apply Z.eqb_refl|].
    apply find_some in Hus. apply Hus.
  - now rewrite He.
Qed.


(** A used code, whoever submits it and whatever the storage does: never a
    success, never a change. *)
Lemma activate_code_used (d : Database) (code : string) (c : LicenseCode.t)
      (user_id now : Z) (fs : list bool) :
  find_code code d = Some c -> LicenseCode.is_used c = true ->
  snd (run_request (activate_code dbapi isoformat code user_id) now fs d) = d /\
  (fst (run_request (activate_code dbapi isoformat code user_id) now fs d) =
     Return (false, "License code already used", None) \/
   exists x, fst (run_request (activate_code dbapi isoformat code user_id) now fs d) =
               Raise x).
Proof.
  intros Hc Hu. unfold activate_code, validate_code. unfold_session.
  run_known; split; try reflexivity; try (left; reflexivity);
    right; eexists; reflexivity.
Qed.

(** C2: once a code is used it stays the same row through every history of
    requests, and every later activation of it, by any account, is refused
    as already used and changes nothing. *)
Theorem redeemed_code_absorbing (d : Database) (code : string)
        (c : LicenseCode.t) (es : list event) :
  wf_db d = true ->
  find_code code d = Some c ->
  LicenseCode.is_used c = true ->
  let d' := serve dbapi hash_password verify_password isoformat es d in
  find_code code d' = Some c /\
  forall user_id now,
    run_request (activate_code dbapi isoformat code user_id) now [] d' =
      (Return (false, "License code already used", None), d') /\
    run_request (activate_license_code dbapi isoformat code user_id) now [] d' =
      (Raise (HTTPException 400 "License code already used"), d') /\
    forall fs,
      snd (run_request (activate_code dbapi isoformat code user_id) now fs d') = d' /\
      (fst (run_request (activate_code dbapi isoformat code user_id) now fs d') =
         Return (false, "License code already used", None) \/
       exists x,
         fst (run_request (activate_code dbapi isoformat code user_id) now fs d') =
           Raise x).
Proof.
  intros Hwf Hc Hu d'.
  assert (Hc' : find_code code d' = Some c)
    by (apply (reach_used_code d); auto; apply serve_reach).
  split; [exact Hc'|]. intros user_id now. split; [|split].
  - unfold activate_code, validate_code. unfold_session. run_known. reflexivity.
  - unfold activate_license_code, activate_code, validate_code. unfold_session.
    run_known. reflexivity.
  - intros fs. now apply (activate_code_used d' code c).
Qed.

(** *** The session gate *)

(** C5: an active account whose expiration lies before now logs in with the
    right password: the account is stored inactive and without expiration,
    and the login is refused as an expired subscription, which is not the
    answer to a never activated account.  If the storage fails, the answer
    is a server error and nothing is stored.  The next login is refused as
    not activated. *)
Theorem login_lazy_expiry (d : Database) (username password : string)
        (u : User.t) (e : datetime) (now : Z) :
  find_username username d = Some u ->
  verify_password password (User.password u) = true ->
  User.is_active u = true ->
  User.expiration_date u = Some e ->
  instant e < now ->
  let u' := User.set_expiration_date None (User.set_is_active false u) in
  let d' := update_user u' d in
  let expired :=
    Return (JSONResponse 403 "Subscription expired. Please renew your license."
              (User.id u)) in
  let not_activated :=
    Return (JSONResponse 403 "Account not activated. Please enter activation code."
              (User.id u)) in
  run_request (login dbapi verify_password isoformat username password) now [] d =
    (expired, d') /\
  find_username username d' = Some u' /\
  User.is_active u' = false /\ User.expiration_date u' = None /\
  expired <> not_activated /\
  (forall fs,
     run_request (login dbapi verify_password isoformat username password) now fs d =
       (expired, d') \/
     run_request (login dbapi verify_password isoformat username password) now fs d =
       (Raise (HTTPException 500 "Internal Server Error"), d)) /\
  (forall later,
     run_request (login dbapi verify_password isoformat username password) later [] d' =
       (not_activated, d')).
Proof.
  intros Hf Hpw Hact Hexp Hlt u' d' expired not_activated.
  apply Z.ltb_lt in Hlt.
  assert (Hf' : find_username username d' = Some u').
  { unfold find_username, d', update_user in *. cbn [users].
    apply (find_map_hit _ (fun r => User.id r =? User.id u') u' _ u);
      [assumption|apply Z.eqb_refl|].
    apply find_some in Hf. apply Hf. }
  split; [|split; [exact Hf'|split; [reflexivity|split; [reflexivity|split;
    [discriminate|split]]]]].
  - unfold login. unfold_session. run_known. reflexivity.
  - intros fs. unfold login. unfold_session.
    run_known; try (left; reflexivity); right; reflexivity.
  - intros later.
    assert (Hpw' : verify_password password (User.password u') = true)
      by exact Hpw.
    assert (Hact' : User.is_active u' = false) by reflexivity.
    assert (Hid : User.id u' = User.id u) by reflexivity.
    subst not_activated. rewrite <- Hid.
    clearbody u' d'. clear Hf Hpw Hact Hexp Hid.
    unfold login. unfold_session. run_known. reflexivity.
Qed.

(** C10: an inactive account logs in with the right password: the login is
    refused as not activated, with the account's id, whatever its stored
    expiration and whatever the clock; nothing is stored, so a stale
    expiration stays. *)
Theorem login_inactive_rejected (d : Database) (username password : string)
        (u : User.t) (now : Z) :
  find_username username d = Some u ->
  verify_password password (User.password u) = true ->
  User.is_active u = false ->
  run_request (login dbapi verify_password isoformat username password) now [] d =
    (Return (JSONResponse 403 "Account not activated. Please enter activation code."
               (User.id u)), d) /\
  (forall fs,
     snd (run_request (login dbapi verify_password isoformat username password) now fs d)
     = d) /\
  find_username username
    (snd (run_request (login dbapi verify_password isoformat username password) now [] d))
  = Some u.
Proof.
  intros Hf Hpw Hact.
  assert (Hrun :
    run_request (login dbapi verify_password isoformat username password) now [] d =
    (Return (JSONResponse 403 "Account not activated. Please enter activation code."
               (User.id u)), d))
    by (unfold login; unfold_session; run_known; reflexivity).
  split; [exact Hrun|split].
  - intros fs. unfold login. unfold_session. run_known; reflexivity.
  - now rewrite Hrun.
Qed.

(** *** Grant keys *)

(** A used grant key, whoever submits it and whatever the storage does:
    an error, and no change. *)
Lemma verify_license_used (d : Database) (username key : string) (l : License.t)
      (now : Z) (fs : list bool) :
  find_license key d = Some l -> License.is_used l = 1 ->
  snd (run_request (verify_license dbapi isoformat username key) now fs d) = d /\
  exists x,
    fst (run_request (verify_license dbapi isoformat username key) now fs d) = Raise x.
Proof.
  intros Hf Hu. unfold verify_license. unfold_session.
  run_known; split; try reflexivity; eexists; reflexivity.
Qed.

(** C6: once a grant key is used it stays the same row through every
    history of requests, and every later redemption of it, by any account,
    fails as already used and changes neither the grant nor the account. *)
Theorem used_grant_key_absorbing (d : Database) (key : string) (l : License.t)
        (es : list event) :
  wf_db d = true ->
  find_license key d = Some l ->
  License.is_used l = 1 ->
  let d' := serve dbapi hash_password verify_password isoformat es d in
  find_license key d' = Some l /\
  forall username now,
    run_request (verify_license dbapi isoformat username key) now [] d' =
      (Raise (HTTPException 400 "License key has already been used"), d') /\
    forall fs,
      snd (run_request (verify_license dbapi isoformat username key) now fs d') = d' /\
      exists x,
        fst (run_request (verify_license dbapi isoformat username key) now fs d') =
          Raise x.
Proof.
  intros Hwf Hf Hu d'.
  assert (Hf' : find_license key d' = Some l)
    by (apply (reach_used_license d); auto; apply serve_reach).
  split; [exact Hf'|]. intros username now. split.
  - unfold verify_license. unfold_session. run_known. reflexivity.
  - intros fs. now apply (verify_license_used d' username key l).
Qed.

(** *** Creation *)

(** C7, as the code has it: [create_license_code] does not look at the sign
    of [duration_days].  For every duration the date arithmetic can
    represent, zero and negative ones included, it stores a code created
    now that expires [duration_days] days from now, so the stored
    [expires_at] is later than [created_at] exactly when the duration is
    positive.  Whatever the storage does, that row is stored or nothing. *)
Theorem create_license_code_expiry (draws : nat -> nat) (duration_days now : Z)
        (d : Database) :
  Z.abs duration_days <= 999999999 ->
  in_range (now + duration_days * us_per_day) = true ->
  find_code (generate_code draws 16) d = None ->
  let c :=
    LicenseCode.mk (next_id (map LicenseCode.id (license_codes d)))
      (generate_code draws 16) false
      (naive now) (naive (now + duration_days * us_per_day)) None in
  let d' := mk_Database (users d) (license d) (license_codes d ++ [c]) in
  run_request (create_license_code dbapi draws duration_days) now [] d = (Return c, d') /\
  (forall fs,
     snd (run_request (create_license_code dbapi draws duration_days) now fs d) = d \/
     snd (run_request (create_license_code dbapi draws duration_days) now fs d) = d') /\
  (now < now + duration_days * us_per_day <-> 0 < duration_days).
Proof.
  intros Habs Hrange Hfree c d'.
  assert (Habs' : (Z.abs duration_days <=? 999999999) = true)
    by (apply Z.leb_le; exact Habs).
  assert (Hc : find_code (generate_code draws 16) d' = Some c).
  { unfold find_code in *. cbn [license_codes d'].
    rewrite find_app_miss by assumption. cbn [find LicenseCode.code c].
    now rewrite String.eqb_refl. }
  assert (Hrun : forall fs,
    let r := run_request (create_license_code dbapi draws duration_days) now fs d in
    (fs = [] -> r = (Return c, d')) /\ (snd r = d \/ snd r = d')).
  { intros fs.
    unfold create_license_code, timedelta_days, datetime_add. unfold_session.
    repeat (run_step || use_known
            || match goal with
               | |- context [find_code ?k (mk_Database ?a ?b ?l)] =>
                   change (find_code k (mk_Database a b l))
                     with (find_code (generate_code draws 16) d');
                   rewrite Hc
               end);
      (split; [try discriminate; reflexivity|auto]). }
  split; [|split].
  - now apply (Hrun []).
  - intros fs. apply (Hrun fs).
  - unfold us_per_day. lia.
Qed.

(** *** Lookups after a request, and the comparisons against the clock *)

Lemma find_username_update (d : Database) (username : string) (u u' : User.t) :
  find_username username d = Some u ->
  User.id u' = User.id u -> User.username u' = User.username u ->
  find_username username (update_user u' d) = Some u'.
Proof.
  intros Hf Hid Hname. unfold find_username, update_user in *. cbn [users].
  apply (find_map_hit _ (fun r => User.id r =? User.id u') u' _ u).
  - assumption.
  - rewrite Hid. apply Z.eqb_refl.
  - rewrite Hname. apply find_some in Hf. apply Hf.
Qed.

Lemma find_username_update_license (d : Database) (username : string)
      (l : License.t) :
  find_username username (update_license l d) = find_username username d.
Proof. reflexivity. Qed.

(** The two comparisons against the clock.  [validate_code] strips the
    offset of now and compares with the stored naive value; [login] reads
    the stored value as UTC and compares with the aware now.  Both compare
    the same instants. *)
Lemma validate_comparison (e : datetime) (now : Z) :
  tzinfo e = None ->
  datetime_lt (Some e) (replace_tzinfo (mk_datetime now (Some UTC)) None)
  = Return (instant e <? now).
Proof. intros H. unfold datetime_lt. cbn. now rewrite H. Qed.

Lemma login_comparison (e : datetime) (now : Z) :
  datetime_lt (Some (replace_tzinfo e (Some UTC))) (mk_datetime now (Some UTC))
  = Return (instant e <? now).
Proof. reflexivity. Qed.

End Properties.

(** * The theorems on the sample data *)

Import Sample.

(** The sample databases follow one another by requests of the service. *)
Example sample_generate :
  run_request (create_license_code aiosqlite draws 30) T0 [] db0 = (Return code0, db1).
Proof. reflexivity. Qed.

Example sample_redeem_key :
  run_request (verify_license aiosqlite isoformat "alice" "K") T0 [] db0
  = (Return ("Account activated successfully", "aware+00:00"), db3).
Proof. reflexivity. Qed.

Example sample_redeem_key_asyncpg :
  run_request (verify_license asyncpg isoformat "alice" "K") T0 [] db0
  = (Raise (HTTPException 500 "Internal Server Error"), db0).
Proof. reflexivity. Qed.

Example sample_history :
  map User.username (users (served db2)) = ["alice"; "bob"] /\
  map LicenseCode.is_used (license_codes (served db2)) = [true; false; false] /\
  map User.is_active (users (served db2)) = [false; true] /\
  map User.is_active (users (served db3)) = [false; false].
Proof. repeat split; reflexivity. Qed.

(** Witness of C1: alice redeems the code one day after its creation. *)
Lemma activate_code_atomic_witness :
  find_code "ABCDEFGHIJKLMNOP" db1 = Some code0 /\
  find_user 1 db1 = Some alice /\
  run_request (activate_code aiosqlite isoformat "ABCDEFGHIJKLMNOP" 1) (T0 + days 1) [] db1
  = (Return (true, "License activated successfully", Some "naive"), db2).
Proof.
  split; [reflexivity|split; [reflexivity|]].
  refine (proj1 (activate_code_atomic aiosqlite isoformat db1 "ABCDEFGHIJKLMNOP" 1
                   (T0 + days 1) code0 (mk_datetime (T0 + days 30) None) alice
                   eq_refl eq_refl eq_refl eq_refl _ eq_refl)).
  vm_compute. discriminate.
Defined.

(** Witness of C2: the redeemed code after the later requests. *)
Lemma redeemed_code_absorbing_witness :
  wf_db db2 = true /\
  find_code "ABCDEFGHIJKLMNOP" (served db2) = Some code0_used /\
  run_request (activate_code aiosqlite isoformat "ABCDEFGHIJKLMNOP" 2) (T0 + days 5) []
    (served db2)
  = (Return (false, "License code already used", None), served db2).
Proof.
  split; [reflexivity|].
  pose proof (redeemed_code_absorbing aiosqlite hash_password verify_password isoformat
                db2 "ABCDEFGHIJKLMNOP" code0_used history
                eq_refl eq_refl eq_refl) as H.
  split; [exact (proj1 H)|].
  exact (proj1 (proj2 H 2 (T0 + days 5))).
Defined.

(** Witness of C4: the unused code validates until its expiration. *)
Lemma validate_code_outcomes_witness :
  wf_db db1 = true /\
  run_request (validate_code isoformat "ABCDEFGHIJKLMNOP") (T0 + days 1) [] db1
  = (Return (true, "License code is valid", Some "naive"), db1).
Proof.
  split; [reflexivity|].
  refine (proj1 (proj2 (proj2 (proj2
            (validate_code_outcomes isoformat db1 "ABCDEFGHIJKLMNOP"
               (T0 + days 1) eq_refl))))
            code0 (mk_datetime (T0 + days 30) None) eq_refl eq_refl eq_refl _).
  vm_compute. discriminate.
Defined.

(** Witness of C5: alice logs in the day after her expiration. *)
Lemma login_lazy_expiry_witness :
  find_username "alice" db2 = Some alice_active /\
  run_request (login_as "alice" "secret") (T0 + days 31) [] db2
  = (Return (JSONResponse 403 "Subscription expired. Please renew your license." 1),
     mk_Database [alice] [K] [code0_used]).
Proof.
  split; [reflexivity|].
  refine (proj1 (login_lazy_expiry aiosqlite verify_password isoformat db2 "alice" "secret"
                   alice_active (mk_datetime (T0 + days 30) None) (T0 + days 31)
                   eq_refl eq_refl eq_refl eq_refl _)).
  vm_compute. reflexivity.
Defined.

(** Witness of C6: the consumed key after the later requests. *)
Lemma used_grant_key_absorbing_witness :
  wf_db db3 = true /\
  find_license "K" (served db3) = Some (License.set_is_used 1 K) /\
  run_request (verify_license aiosqlite isoformat "bob" "K") (T0 + days 5) []
    (served db3)
  = (Raise (HTTPException 400 "License key has already been used"),
     served db3).
Proof.
  split; [reflexivity|].
  pose proof (used_grant_key_absorbing aiosqlite hash_password verify_password isoformat
                db3 "K" (License.set_is_used 1 K) history
                eq_refl eq_refl eq_refl) as H.
  split; [exact (proj1 H)|].
  exact (proj1 (proj2 H "bob" (T0 + days 5))).
Defined.



(** Witness of C10: alice, never activated, logs in. *)
Lemma login_inactive_rejected_witness :
  User.is_active alice = false /\
  run_request (login_as "alice" "secret") (T0 + days 1) [] db1
  = (Return (JSONResponse 403
               "Account not activated. Please enter activation code." 1), db1).
Proof.
  split; [reflexivity|].
  exact (proj1 (login_inactive_rejected aiosqlite verify_password isoformat db1 "alice"
                  "secret" alice (T0 + days 1) eq_refl eq_refl eq_refl)).
Defined.

(** Counterexample to C7 as stated: a code is created with a duration of zero days, and
    the stored code expires at the instant of its creation. *)
Lemma create_license_code_zero_days :
  exists c d',
    run_request (create_license_code aiosqlite draws 0) T0 [] db0 = (Return c, d') /\
    In c (license_codes d') /\
    LicenseCode.created_at c = naive T0 /\
    LicenseCode.expires_at c = naive T0 /\
    ~ (exists created expires,
         LicenseCode.created_at c = Some created /\
         LicenseCode.expires_at c = Some expires /\
         instant created < instant expires).
Proof.
  eexists. eexists. split; [vm_compute; reflexivity|].
  split; [left; reflexivity|]. split; [reflexivity|]. split; [reflexivity|].
  intros (created & expires & Hc & He & Hlt).
  injection Hc as <-. injection He as <-. cbn in Hlt. lia.
Defined.

(** Witness of C7 as amended: a duration of minus one day is accepted,
    and the stored code expired the day before its creation. *)
Lemma create_license_code_expiry_witness :
  Z.abs (-1) <= 999999999 /\
  exists c d',
    run_request (create_license_code aiosqlite draws (-1)) T0 [] db0 = (Return c, d') /\
    LicenseCode.created_at c = naive T0 /\
    LicenseCode.expires_at c = naive (T0 - days 1).
Proof.
  split; [vm_compute; discriminate|].
  eexists. eexists. split.
  - refine (proj1 (create_license_code_expiry aiosqlite draws (-1) T0 db0 _ eq_refl eq_refl)).
    vm_compute. discriminate.
  - split; reflexivity.
Defined.


(** * More lemmas: the stored state row by row *)


Lemma path_trans (d1 d2 d3 : Database) : path d1 d2 -> path d2 d3 -> path d1 d3.
Proof.
  intros H12 H23. revert H12.
  induction H23 as [|d2 d3 d4 _ IH T]; intros H12; [assumption|].
  apply (path_step d1 d3 d4); auto.
Qed.

Lemma path_one (d d' : Database) : step d d' -> path d d'.
Proof. intros H. apply (path_step d d d'); [apply path_refl|exact H]. Qed.

Ltac found_rows :=
  repeat match goal with
         | H : Some _ = Some _ |- _ => injection H as ->
         | H : find_code _ _ = Some _ |- _ => apply find_some in H; destruct H as [H _]
         | H : find_license _ _ = Some _ |- _ => apply find_some in H; destruct H as [H _]
         | H : find_username _ _ = Some _ |- _ => apply find_some in H; destruct H as [H _]
         | H : find_user _ _ = Some _ |- _ => apply find_some in H; destruct H as [H _]
         end.

(** What the driver lets through to a [DateTime] column has no offset. *)
Lemma bind_DateTime_no_offset (dbapi : driver) (v w : option datetime) :
  bind_DateTime dbapi v = Return w -> no_offset w = true.
Proof.
  unfold bind_DateTime, no_offset.
  destruct v as [[t [[]|]]|]; cbn; [destruct dbapi| |];
    intros H; try discriminate; injection H as <-; reflexivity.
Qed.

Ltac stamp :=
  cbn;
  first [ reflexivity
        | eapply bind_DateTime_no_offset; eassumption
        | match goal with H : tzinfo _ = None |- _ => rewrite H; reflexivity end ].

Section Paths.

Variable dbapi : driver.
Variable hash_password : string -> string.
Variable verify_password : string -> string -> bool.
Variable isoformat : datetime -> string.

Lemma activate_path (code : string) (user_id now : Z) (fs : list bool)
      (d : Database) :
  path d (snd (run_request (activate_license_code dbapi isoformat code user_id) now fs d)).
Proof.
  unfold activate_license_code, activate_code, validate_code. unfold_session.
  run_all; try apply path_refl.
  all: found_rows.
  all: eapply path_step;
    [|eapply s_user;
        [cbn [users update_license_code]; eassumption
        |reflexivity|reflexivity|reflexivity|stamp]].
  all: apply path_one; now apply s_redeem.
Qed.

Lemma login_path (username password : string) (now : Z) (fs : list bool)
      (d : Database) :
  path d (snd (run_request (login dbapi verify_password isoformat username password) now fs d)).
Proof.
  unfold login. unfold_session.
  run_all; try apply path_refl.
  all: found_rows.
  all: apply path_one; eapply s_user;
    [eassumption|reflexivity|reflexivity|reflexivity|stamp].
Qed.

Lemma in_update_user (u u' : User.t) (d : Database) :
  In u (users d) -> User.id u' = User.id u -> In u' (users (update_user u' d)).
Proof.
  intros Hin Hid. unfold update_user. cbn [users].
  apply in_map_iff. exists u. split; [|assumption].
  rewrite Hid, Z.eqb_refl. reflexivity.
Qed.

Lemma verify_license_path (username key : string) (now : Z) (fs : list bool)
      (d : Database) :
  path d (snd (run_request (verify_license dbapi isoformat username key) now fs d)).
Proof.
  unfold verify_license. unfold_session.
  run_all; try apply path_refl.
  all: found_rows.
  all: eapply path_step; [|now apply s_grant].
  all: eapply path_step;
    [|eapply s_user;
        [eapply in_update_user; [eassumption|reflexivity]
        |reflexivity|reflexivity|reflexivity|stamp]].
  all: apply path_one; eapply s_user;
    [eassumption|reflexivity|reflexivity|reflexivity|stamp].
Qed.

Lemma signup_path (username password : string) (now : Z) (fs : list bool)
      (d : Database) :
  path d (snd (run_request (signup dbapi hash_password username password) now fs d)).
Proof.
  unfold signup. unfold_session.
  run_all; try apply path_refl.
  all: apply path_one.
  all: match goal with
       | |- step _ (mk_Database (_ ++ [User.set_id _ ?u]) _ _) =>
           apply (s_signup u); [assumption|reflexivity..]
       end.
Qed.

Lemma create_license_code_settled_path (draws : nat -> nat) (days : Z)
      (st : Database) (clk : Z) (fs : list bool) :
  let s' := snd (create_license_code dbapi draws days (mk_Session st st [] clk fs)) in
  txn s' = stored s' /\ inserts s' = [] /\ clock s' = clk /\ path st (stored s').
Proof.
  unfold create_license_code, timedelta_days, datetime_add. unfold_session.
  run_all; repeat split; try apply path_refl.
  all: apply path_one.
  all: match goal with
       | |- step _ (mk_Database _ _ (_ ++ [LicenseCode.set_id _ ?c])) =>
           apply (s_create c); [assumption|reflexivity..]
       end.
Qed.

Lemma generate_loop_settled_path (draws : nat -> nat -> nat) (ticks : nat -> Z)
      (days : Z) (k : nat) :
  forall (i : nat) (st : Database) (clk : Z) (fs : list bool),
    let s' := snd (generate_loop dbapi draws ticks i k days (mk_Session st st [] clk fs)) in
    txn s' = stored s' /\ inserts s' = [] /\ path st (stored s').
Proof.
  induction k as [|k IH]; intros i st clk fs; cbv zeta.
  - cbn. repeat split. apply path_refl.
  - cbn [generate_loop]. rewrite bind_run.
    pose proof (create_license_code_settled_path (draws i) days st clk fs) as H.
    cbv zeta in H.
    destruct (create_license_code dbapi (draws i) days (mk_Session st st [] clk fs))
      as [[c|e] [st1 tx1 ins1 clk1 fs1]]; cbn in H;
      destruct H as (-> & -> & -> & Hreach).
    + rewrite bind_run. cbn [elapse stored txn inserts clock faults].
      rewrite bind_run.
      specialize (IH (S i) st1 (clk + ticks i) fs1). cbv zeta in IH.
      destruct (generate_loop dbapi draws ticks (S i) k days
                  (mk_Session st1 st1 [] (clk + ticks i) fs1))
        as [[cs|e] s2]; cbn in *;
        destruct IH as (H1 & H2 & H3);
        repeat split; eauto using path_trans.
    + cbn. repeat split. assumption.
Qed.

Lemma generate_path (draws : nat -> nat) (days now : Z) (fs : list bool)
      (d : Database) :
  path d (snd (run_request (generate_license_code dbapi draws days) now fs d)).
Proof.
  unfold generate_license_code, run_request, try_except.
  pose proof (create_license_code_settled_path draws days d now fs) as H.
  cbv zeta in H.
  destruct (create_license_code dbapi draws days (mk_Session d d [] now fs))
    as [[c|e] s]; cbn in *; tauto.
Qed.

Lemma generate_multiple_path (draws : nat -> nat -> nat) (ticks : nat -> Z)
      (count days now : Z)
      (fs : list bool) (d : Database) :
  path d (snd (run_request (generate_multiple_codes dbapi draws ticks count days) now fs d)).
Proof.
  unfold generate_multiple_codes, run_request, try_except.
  pose proof (generate_loop_settled_path draws ticks days (Z.to_nat count) 0 d now fs) as H.
  cbv zeta in H.
  destruct (generate_loop dbapi draws ticks 0 (Z.to_nat count) days (mk_Session d d [] now fs))
    as [[c|e] s]; cbn in *; tauto.
Qed.

Lemma handle_path (e : event) (d : Database) :
  path d (handle dbapi hash_password verify_password isoformat e d).
Proof.
  unfold handle. destruct (ev_request e).
  - apply signup_path.
  - apply login_path.
  - apply verify_license_path.
  - apply generate_path.
  - apply generate_multiple_path.
  - rewrite validate_reach. apply path_refl.
  - apply activate_path.
Qed.

Lemma serve_path (es : list event) (d : Database) :
  path d (serve dbapi hash_password verify_password isoformat es d).
Proof.
  unfold serve. revert d.
  induction es as [|e es IH]; intros d; cbn; [apply path_refl|].
  eapply path_trans; [apply handle_path|apply IH].
Qed.

End Paths.

(** ** The steps keep the constraints of the schema *)

Lemma unique_NoDup (l : list string) : unique l = true <-> NoDup l.
Proof.
  induction l as [|x l IH]; cbn.
  - split; [constructor|reflexivity].
  - rewrite andb_true_iff, negb_true_iff, IH. split.
    + intros [Hx Hl]. constructor; [|assumption].
      intros Hin.
      assert (E : existsb (String.eqb x) l = true)
        by (apply existsb_exists; exists x; split;
            [assumption|apply String.eqb_refl]).
      congruence.
    + intros H. inversion H as [|? ? Hx Hl]; subst. split; [|assumption].
      destruct (existsb (String.eqb x) l) eqn:E; [|reflexivity].
      apply existsb_exists in E. destruct E as [y [Hy Hxy]].
      apply String.eqb_eq in Hxy. subst. contradiction.
Qed.

Lemma distinct_iff (l : list Z) : distinct l = true <-> NoDup l.
Proof. split; [apply distinct_NoDup|apply NoDup_distinct]. Qed.

Lemma schema_ok_iff (d : Database) :
  schema_ok d = true <->
  NoDup (map User.id (users d)) /\ NoDup (map License.id (license d)) /\
  NoDup (map LicenseCode.id (license_codes d)) /\
  NoDup (map User.username (users d)) /\ NoDup (map License.key (license d)) /\
  NoDup (map LicenseCode.code (license_codes d)).
Proof.
  unfold schema_ok. rewrite !andb_true_iff, !distinct_iff, !unique_NoDup. tauto.
Qed.

Section Keyed.
Context {A : Type} (key : A -> Z).

(** With a primary key, [UPDATE ... WHERE id = key a'] meets one row. *)
Lemma update_meets_one (l : list A) (a a' r : A) :
  NoDup (map key l) -> In a l -> In r l -> key a' = key a ->
  (key r =? key a') = true -> r = a.
Proof.
  intros Hnd Ha Hr Hk E. apply Z.eqb_eq in E.
  apply (NoDup_key_inj key l); auto. congruence.
Qed.

(** A column on which the new values agree with the old ones is unchanged
    by the update. *)
Lemma map_update_same {B} (f : A -> B) (l : list A) (a a' : A) :
  NoDup (map key l) -> In a l -> key a' = key a -> f a' = f a ->
  map f (map (fun r => if key r =? key a' then a' else r) l) = map f l.
Proof.
  intros Hnd Ha Hk Hf. rewrite map_map. apply map_ext_in. intros r Hr.
  destruct (key r =? key a') eqn:E; [|reflexivity].
  rewrite (update_meets_one l a a' r); auto.
Qed.
End Keyed.

Lemma NoDup_snoc {A} (l : list A) (x : A) :
  NoDup l -> ~ In x l -> NoDup (l ++ [x]).
Proof.
  intros Hl Hx. apply NoDup_app; [assumption|repeat constructor; intros []|].
  intros y Hy [<-|[]]. contradiction.
Qed.

Lemma next_id_fresh (ids : list Z) : ~ In (next_id ids) ids.
Proof. intros H. apply next_id_above in H. lia. Qed.

Lemma find_none_not_in {A} (f : A -> string) (name : string) (l : list A) :
  find (fun r => String.eqb (f r) name) l = None -> ~ In name (map f l).
Proof.
  intros Hf Hin. apply in_map_iff in Hin. destruct Hin as [r [<- Hr]].
  apply (find_none _ _ Hf) in Hr. now rewrite String.eqb_refl in Hr.
Qed.

Lemma step_schema_ok (d d' : Database) :
  step d d' -> schema_ok d = true -> schema_ok d' = true.
Proof.
  rewrite !schema_ok_iff.
  intros S (Hu & Hl & Hc & Hun & Hlk & Hcc).
  destruct S as [u d Hf Ha He | c d Hf Hok Hu0 Hb | u u' d Hin Hid Hn Hp
                | c uid d Hin Hu0 | l d Hin];
    unfold update_user, update_license, update_license_code;
    cbn [users license license_codes]; repeat split; try assumption.
  - rewrite map_app. cbn. apply NoDup_snoc; [assumption|apply next_id_fresh].
  - rewrite map_app. cbn. apply NoDup_snoc; [assumption|].
    now apply (find_none_not_in User.username).
  - rewrite map_app. cbn. apply NoDup_snoc; [assumption|apply next_id_fresh].
  - rewrite map_app. cbn. apply NoDup_snoc; [assumption|].
    now apply (find_none_not_in LicenseCode.code).
  - now rewrite (map_update_same User.id User.id _ u).
  - now rewrite (map_update_same User.id User.username _ u).
  - now rewrite (map_update_same LicenseCode.id LicenseCode.id _ c).
  - now rewrite (map_update_same LicenseCode.id LicenseCode.code _ c).
  - now rewrite (map_update_same License.id License.id _ l).
  - now rewrite (map_update_same License.id License.key _ l).
Qed.

Lemma path_schema_ok (d d' : Database) :
  path d d' -> schema_ok d = true -> schema_ok d' = true.
Proof.
  induction 1 as [|d1 d2 d3 _ IH S]; intros H; [assumption|].
  eapply step_schema_ok; eauto.
Qed.

(** ** The steps keep [used_by] in line with [is_used] *)

Lemma step_redemptions_ok (d d' : Database) :
  step d d' -> redemptions_ok d = true -> redemptions_ok d' = true.
Proof.
  unfold redemptions_ok.
  intros S H.
  destruct S as [u d Hf Ha He | c d Hf Hok Hu0 Hb | u u' d Hin Hid Hn Hp
                | c uid d Hin Hu0 | l d Hin];
    unfold update_user, update_license, update_license_code;
    cbn [users license license_codes]; try assumption.
  - rewrite forallb_app, H. cbn. unfold redemption_ok. cbn.
    now rewrite Hu0, Hb.
  - rewrite forallb_forall in *. intros x Hx.
    apply in_map_iff in Hx. destruct Hx as [r [<- Hr]].
    destruct (LicenseCode.id r =? _); [reflexivity|auto].
Qed.

Lemma path_redemptions_ok (d d' : Database) :
  path d d' -> redemptions_ok d = true -> redemptions_ok d' = true.
Proof.
  induction 1 as [|d1 d2 d3 _ IH S]; intros H; [assumption|].
  eapply step_redemptions_ok; eauto.
Qed.

(** ** The steps keep the rows *)

Lemma user_kept_refl (u : User.t) : user_kept u u.
Proof. repeat split. Qed.

Lemma code_kept_refl (c : LicenseCode.t) : code_kept c c.
Proof. repeat split. Qed.

Lemma license_kept_refl (l : License.t) : license_kept l l.
Proof. repeat split. Qed.

Lemma rows_kept_refl (d : Database) : rows_kept d d.
Proof.
  repeat split; intros r Hr; exists r; split; auto using user_kept_refl,
    code_kept_refl, license_kept_refl.
Qed.

Lemma rows_kept_trans (d1 d2 d3 : Database) :
  rows_kept d1 d2 -> rows_kept d2 d3 -> rows_kept d1 d3.
Proof.
  intros (U1 & C1 & L1) (U2 & C2 & L2). repeat split.
  - intros u Hu. destruct (U1 u Hu) as (u' & Hu' & K1).
    destruct (U2 u' Hu') as (u'' & Hu'' & K2). exists u''. split; [assumption|].
    unfold user_kept in *. intuition congruence.
  - intros c Hc. destruct (C1 c Hc) as (c' & Hc' & K1).
    destruct (C2 c' Hc') as (c'' & Hc'' & K2). exists c''. split; [assumption|].
    unfold code_kept in *.
    destruct K1 as (A1 & A2 & A3 & A4 & A5), K2 as (B1 & B2 & B3 & B4 & B5).
    repeat split; try congruence.
    intros Hused. specialize (A5 Hused). subst c'. auto.
  - intros l Hl. destruct (L1 l Hl) as (l' & Hl' & K1).
    destruct (L2 l' Hl') as (l'' & Hl'' & K2). exists l''. split; [assumption|].
    unfold license_kept in *.
    destruct K1 as (A1 & A2 & A3 & A4), K2 as (B1 & B2 & B3 & B4).
    repeat split; try congruence.
    intros Hused. specialize (A4 Hused). subst l'. auto.
Qed.

Lemma step_rows_kept (d d' : Database) :
  step d d' -> schema_ok d = true -> rows_kept d d'.
Proof.
  rewrite schema_ok_iff.
  intros S (Hu & Hl & Hc & _).
  destruct S as [u d Hf Ha He | c d Hf Hok Hu0 Hb | u u' d Hin Hid Hn Hp
                | c uid d Hin Hu0 | l d Hin];
    unfold update_user, update_license, update_license_code;
    repeat split; cbn [users license license_codes]; intros r Hr;
      try (exists r; split;
           [first [assumption | apply in_or_app; now left]
           |auto using user_kept_refl, code_kept_refl, license_kept_refl]).
  - exists (if User.id r =? User.id u' then u' else r). split.
    + apply in_map_iff. now exists r.
    + destruct (User.id r =? User.id u') eqn:E; [|apply user_kept_refl].
      rewrite (update_meets_one User.id (users d) u u' r); auto.
      repeat split; assumption.
  - exists (if LicenseCode.id r =? LicenseCode.id c
            then LicenseCode.set_used_by (Some uid) (LicenseCode.set_is_used true c)
            else r).
    split.
    + apply in_map_iff. now exists r.
    + destruct (LicenseCode.id r =? LicenseCode.id c) eqn:E;
        [|apply code_kept_refl].
      rewrite (update_meets_one LicenseCode.id (license_codes d) c c r); auto.
      repeat split. congruence.
  - exists (if License.id r =? License.id l then License.set_is_used 1 l else r).
    split.
    + apply in_map_iff. now exists r.
    + destruct (License.id r =? License.id l) eqn:E;
        [|apply license_kept_refl].
      rewrite (update_meets_one License.id (license d) l l r); auto.
      repeat split. intros Hused. destruct l; cbn in *. now subst.
Qed.

Lemma path_rows_kept (d d' : Database) :
  path d d' -> schema_ok d = true -> rows_kept d d'.
Proof.
  induction 1 as [|d1 d2 d3 P IH S]; intros H; [apply rows_kept_refl|].
  eapply rows_kept_trans; [apply IH; assumption|].
  apply step_rows_kept; [assumption|]. eapply path_schema_ok; eauto.
Qed.

(** ** The stored timestamps have no offset *)







(** * More of the service *)

(** Use what is known of the data the run is waiting for. *)
Ltac use_facts :=
  match goal with
  | H : ?x = _ |- context [?x] =>
      lazymatch x with
      | find_code _ _ => idtac
      | find_user _ _ => idtac
      | find_username _ _ => idtac
      | find_license _ _ => idtac
      | LicenseCode.is_used _ => idtac
      | LicenseCode.expires_at _ => idtac
      | License.is_used _ => idtac
      | User.is_active _ => idtac
      | User.expiration_date _ => idtac
      | (_ =? _) => idtac
      | (_ <? _) => idtac
      | (_ <=? _) => idtac
      | in_range _ => idtac
      | tzinfo _ => idtac
      | ?f _ _ => is_var f
      end;
      rewrite H
  end.

Ltac run_facts := repeat (run_step || use_facts).

(** ** The code generator *)

Lemma secrets_choice_in (draw : nat) : In (secrets_choice draw) alphabet.
Proof.
  unfold secrets_choice. apply nth_In.
  apply Nat.mod_upper_bound. vm_compute. discriminate.
Qed.

Lemma length_string_of_list_ascii (l : list Ascii.ascii) :
  String.length (string_of_list_ascii l) = List.length l.
Proof. induction l as [|a l IH]; cbn; congruence. Qed.

(** X1: [generate_code] gives a token of the length asked for, made of
    uppercase letters and digits only, whatever the random source draws. *)
Theorem generate_code_shape (draws : nat -> nat) (length : nat) :
  String.length (generate_code draws length) = length /\
  forallb upper_or_digit (list_ascii_of_string (generate_code draws length)) = true.
Proof.
  unfold generate_code. split.
  - now rewrite length_string_of_list_ascii, length_map, length_seq.
  - rewrite list_ascii_of_string_of_list_ascii. apply forallb_forall.
    intros a Ha. apply in_map_iff in Ha. destruct Ha as [i [<- _]].
    assert (H : forallb upper_or_digit alphabet = true) by reflexivity.
    rewrite forallb_forall in H. apply H, secrets_choice_in.
Qed.

Section More.

Variable dbapi : driver.
Variable hash_password : string -> string.
Variable verify_password : string -> string -> bool.
Variable isoformat : datetime -> string.

(** ** Creation *)

Lemma find_code_with_code (c : LicenseCode.t) (d : Database) :
  find_code (LicenseCode.code c) d = None ->
  find_code (LicenseCode.code c) (with_code c d) = Some c.
Proof.
  intros H. unfold find_code, with_code in *. cbn [license_codes].
  rewrite find_app_miss by assumption. cbn. now rewrite String.eqb_refl.
Qed.

(** [create_license_code] in a session without open changes, when the date
    arithmetic is in range and the token is new: the outcome for every
    schedule of storage faults. *)
Lemma create_license_code_session (draws : nat -> nat) (duration_days : Z)
      (st : Database) (clk : Z) (fs : list bool) :
  Z.abs duration_days <= 999999999 ->
  in_range (clk + duration_days * us_per_day) = true ->
  find_code (generate_code draws 16) st = None ->
  let c := created_code draws duration_days clk st in
  let r := create_license_code dbapi draws duration_days (mk_Session st st [] clk fs) in
  (exists fs', r = (Return c, mk_Session (with_code c st) (with_code c st) [] clk fs')
               /\ (fs = [] -> fs' = [])) \/
  ((exists e fs', r = (Raise e, mk_Session st st [] clk fs')
                  \/ r = (Raise e, mk_Session (with_code c st) (with_code c st) [] clk fs'))
   /\ fs <> []).
Proof.
  intros Habs Hrange Hfree c r.
  assert (Habs' : (Z.abs duration_days <=? 999999999) = true)
    by (apply Z.leb_le; exact Habs).
  assert (Hc : find_code (generate_code draws 16) (with_code c st) = Some c)
    by (apply (find_code_with_code c st); exact Hfree).
  subst r.
  unfold create_license_code, timedelta_days, datetime_add. unfold_session.
  repeat (run_step || use_facts
          || match goal with
             | |- context [find_code ?k (mk_Database ?a ?b ?l)] =>
                 change (find_code k (mk_Database a b l))
                   with (find_code (generate_code draws 16) (with_code c st));
                 rewrite Hc
             end).
  all: try (left; eexists; split; [reflexivity|]; try reflexivity; discriminate).
  all: right; split; [|discriminate]; eexists; eexists;
    (left; reflexivity) || (right; reflexivity).
Qed.

(** [create_license_code] in a session without open changes: what a return
    and what a raise say about the stored state. *)
Lemma create_license_code_cases (draws : nat -> nat) (duration_days : Z)
      (st : Database) (clk : Z) (fs : list bool) :
  let c := created_code draws duration_days clk st in
  let r := create_license_code dbapi draws duration_days (mk_Session st st [] clk fs) in
  txn (snd r) = stored (snd r) /\ inserts (snd r) = [] /\ clock (snd r) = clk /\
  match fst r with
  | Return c' =>
      c' = c /\ stored (snd r) = with_code c st /\
      find_code (generate_code draws 16) st = None
  | Raise e =>
      (stored (snd r) = st \/
       stored (snd r) = with_code c st /\
       find_code (generate_code draws 16) st = None) /\
      exists msg, e = Exception ("Failed to create license code: " ++ msg)
  end.
Proof.
  intros c r. subst r c.
  unfold create_license_code, timedelta_days, datetime_add. unfold_session.
  run_all; repeat split; auto.
  all: try (eexists; reflexivity).
  all: try (right; split; [reflexivity|assumption]).
  all: match goal with
       | Hn : find_code ?k ?st = None, Hs : find_code ?k ?d' = Some ?r |- _ =>
           assert (Hw : find_code k
                          (with_code (created_code draws duration_days clk st) st)
                        = Some (created_code draws duration_days clk st))
             by exact (find_code_with_code
                         (created_code draws duration_days clk st) st Hn);
           change d' with (with_code (created_code draws duration_days clk st) st) in Hs;
           rewrite Hw in Hs; now injection Hs as <-
       end.
Qed.

Lemma run_request_eq {A} (m : M A) (now : Z) (fs : list bool) (d : Database) :
  run_request m now fs d =
  (fst (m (mk_Session d d [] now fs)), stored (snd (m (mk_Session d d [] now fs)))).
Proof. unfold run_request. now destruct (m (mk_Session d d [] now fs)). Qed.

(** X2: when the generated token is already stored, [create_license_code]
    raises and stores nothing, whatever the storage does; the route answers
    500 with the text of the service. *)
Theorem create_license_code_collision (draws : nat -> nat) (duration_days now : Z)
        (d : Database) (c0 : LicenseCode.t) (fs : list bool) :
  find_code (generate_code draws 16) d = Some c0 ->
  exists msg,
    run_request (create_license_code dbapi draws duration_days) now fs d =
      (Raise (Exception ("Failed to create license code: " ++ msg)), d) /\
    run_request (generate_license_code dbapi draws duration_days) now fs d =
      (Raise (HTTPException 500 ("Failed to create license code: " ++ msg)), d).
Proof.
  intros Hc0.
  pose proof (create_license_code_cases draws duration_days d now fs) as H.
  cbv zeta in H. destruct H as (_ & _ & _ & H).
  unfold generate_license_code. rewrite !run_request_eq.
  unfold try_except.
  destruct (create_license_code dbapi draws duration_days (mk_Session d d [] now fs))
    as [[c|e] s]; cbn [fst snd] in *.
  - destruct H as (_ & _ & H). congruence.
  - destruct H as ([H|[_ H]] & msg & ->); [|congruence].
    exists msg. cbn. now rewrite H.
Qed.

(** X3: a duration the date arithmetic cannot represent (more than
    999999999 days, or an expiration outside the years 1 to 9999): the
    service raises before it reaches the storage and stores nothing. *)
Theorem create_license_code_overflow (draws : nat -> nat) (duration_days now : Z)
        (d : Database) (fs : list bool) :
  999999999 < Z.abs duration_days \/
  in_range (now + duration_days * us_per_day) = false ->
  exists msg,
    run_request (create_license_code dbapi draws duration_days) now fs d =
      (Raise (Exception ("Failed to create license code: " ++ msg)), d) /\
    run_request (generate_license_code dbapi draws duration_days) now fs d =
      (Raise (HTTPException 500 ("Failed to create license code: " ++ msg)), d).
Proof.
  intros H.
  destruct (Z.abs duration_days <=? 999999999) eqn:Habs.
  - destruct H as [H|Hr]; [apply Z.leb_le in Habs; lia|].
    eexists. unfold generate_license_code, create_license_code, timedelta_days,
      datetime_add.
    unfold_session. run_facts; split; reflexivity.
  - eexists. unfold generate_license_code, create_license_code, timedelta_days,
      datetime_add.
    unfold_session. run_facts; split; reflexivity.
Qed.

(** X4: a created code validates until its expiration and is refused as
    expired afterwards; a code created with a negative duration is never
    valid. *)
Theorem created_code_validity (draws : nat -> nat) (duration_days now : Z)
        (d : Database) :
  Z.abs duration_days <= 999999999 ->
  in_range (now + duration_days * us_per_day) = true ->
  find_code (generate_code draws 16) d = None ->
  let c := created_code draws duration_days now d in
  let d' := with_code c d in
  let expires := mk_datetime (now + duration_days * us_per_day) None in
  run_request (create_license_code dbapi draws duration_days) now [] d = (Return c, d') /\
  (forall later,
     later <= instant expires ->
     run_request (validate_code isoformat (LicenseCode.code c)) later [] d' =
       (Return (true, "License code is valid", Some (isoformat expires)), d')) /\
  (forall later,
     instant expires < later ->
     run_request (validate_code isoformat (LicenseCode.code c)) later [] d' =
       (Return (false, "License code has expired", None), d')) /\
  (duration_days < 0 ->
   forall later,
     now <= later ->
     run_request (validate_code isoformat (LicenseCode.code c)) later [] d' =
       (Return (false, "License code has expired", None), d')).
Proof.
  intros Habs Hrange Hfree c d' expires.
  assert (Hc : find_code (generate_code draws 16) d' = Some c)
    by (apply (find_code_with_code c d); exact Hfree).
  assert (Hexp : forall later, instant expires < later ->
     run_request (validate_code isoformat (LicenseCode.code c)) later [] d' =
       (Return (false, "License code has expired", None), d')).
  { intros later Hl. apply Z.ltb_lt in Hl. cbn [instant expires] in Hl.
    unfold validate_code. unfold_session. cbn [LicenseCode.code c].
    run_facts. reflexivity. }
  split; [|split; [|split]].
  - destruct (create_license_code_session draws duration_days d now []
                Habs Hrange Hfree) as [(fs' & H & _)|[_ H]]; [|congruence].
    rewrite run_request_eq. fold c in H. now rewrite H.
  - intros later Hl. apply Z.ltb_ge in Hl. cbn [instant expires] in Hl.
    unfold validate_code. unfold_session. cbn [LicenseCode.code c].
    run_facts. reflexivity.
  - exact Hexp.
  - intros Hneg later Hl. apply Hexp. cbn [instant expires].
    unfold us_per_day. lia.
Qed.

(** X5: activation re-runs the checks of validation: a code that
    [validate_code] refuses is refused by [activate_code] with the same
    message, for every account, and nothing is stored. *)
Theorem activate_code_refuses_like_validate (d : Database) (code : string)
        (user_id now : Z) (message : string) (x : option string) :
  run_request (validate_code isoformat code) now [] d =
    (Return (false, message, x), d) ->
  run_request (activate_code dbapi isoformat code user_id) now [] d =
    (Return (false, message, None), d) /\
  run_request (activate_license_code dbapi isoformat code user_id) now [] d =
    (Raise (HTTPException 400 message), d) /\
  forall fs,
    snd (run_request (activate_code dbapi isoformat code user_id) now fs d) = d.
Proof.
  unfold activate_license_code, activate_code, validate_code. unfold_session.
  cbn. destruct (find_code code d) as [c|] eqn:Hf; cbn.
  - destruct (LicenseCode.is_used c) eqn:Hu; cbn.
    + intros H. injection H as <- <-. repeat split.
      intros fs. run_facts; reflexivity.
    + destruct (datetime_lt (LicenseCode.expires_at c)
                  (replace_tzinfo (mk_datetime now (Some UTC)) None))
        as [[|]|e] eqn:Hlt; cbn; try discriminate.
      intros H. injection H as <- <-. repeat split.
      intros fs. run_all; reflexivity || congruence.
  - intros H. injection H as <- <-. repeat split.
    intros fs. run_facts; reflexivity.
Qed.

(** ** What every history of requests keeps *)

(** X6: the primary keys and the unique columns of the three tables stay
    free of duplicates through every history of requests. *)
Theorem service_keeps_schema (es : list event) (d : Database) :
  schema_ok d = true ->
  schema_ok (serve dbapi hash_password verify_password isoformat es d) = true.
Proof. apply path_schema_ok, serve_path. Qed.

(** X7: [used_by] is set on the used codes and on no other code, through
    every history of requests. *)
Theorem service_keeps_redemptions (es : list event) (d : Database) :
  redemptions_ok d = true ->
  redemptions_ok (serve dbapi hash_password verify_password isoformat es d) = true.
Proof. apply path_redemptions_ok, serve_path. Qed.

(** X8: no request deletes a row or rewrites its identity: after every
    history each account is still there with its id, username and password,
    each code with its id, token and timestamps, each grant key with its
    id, key and duration; a used code and a used grant key keep all their
    values. *)
Theorem service_keeps_rows (es : list event) (d : Database) :
  schema_ok d = true ->
  rows_kept d (serve dbapi hash_password verify_password isoformat es d).
Proof. intros H. apply path_rows_kept; [apply serve_path|exact H]. Qed.

(** ** The session gate *)

(** X9: an unknown username and a wrong password get the same answer, 401
    with the same text, and nothing is stored. *)
Theorem login_invalid_credentials (d : Database) (username password : string)
        (now : Z) :
  find_username username d = None \/
  (exists u, find_username username d = Some u /\
             verify_password password (User.password u) = false) ->
  run_request (login dbapi verify_password isoformat username password) now [] d =
    (Raise (HTTPException 401 "Invalid Credentials"), d) /\
  forall fs,
    snd (run_request (login dbapi verify_password isoformat username password) now fs d)
    = d.
Proof.
  intros [Hf|(u & Hf & Hpw)]; unfold login; unfold_session; split;
    try intros fs; run_facts; reflexivity.
Qed.

(** X10: an active account without expiration, or whose expiration is not
    before now, logs in: the answer carries the stored expiration, and
    nothing is stored.  An expiration equal to now still logs in. *)
Theorem login_success (d : Database) (username password : string) (u : User.t)
        (now : Z) :
  find_username username d = Some u ->
  verify_password password (User.password u) = true ->
  User.is_active u = true ->
  (forall e, User.expiration_date u = Some e -> now <= instant e) ->
  run_request (login dbapi verify_password isoformat username password) now [] d =
    (Return (LoginOk "Login Successful"
               (isoformat_or_None isoformat (User.expiration_date u))), d) /\
  forall fs,
    snd (run_request (login dbapi verify_password isoformat username password) now fs d)
    = d.
Proof.
  intros Hf Hpw Hact Hexp.
  destruct (User.expiration_date u) as [e|] eqn:He.
  - assert (Hlt : (instant e <? now) = false)
      by (apply Z.ltb_ge; now apply Hexp).
    unfold login; unfold_session; split; try intros fs; run_facts; reflexivity.
  - unfold login; unfold_session; split; try intros fs; run_facts; reflexivity.
Qed.

(** All a login can store: the account that logs in, active before, is
    inactive and without expiration. *)
Lemma login_effect (d : Database) (username password : string) (now : Z)
      (fs : list bool) :
  let d' := snd (run_request (login dbapi verify_password isoformat username password)
                   now fs d) in
  d' = d \/
  exists u e,
    find_username username d = Some u /\ User.is_active u = true /\
    User.expiration_date u = Some e /\ instant e < now /\
    d' = update_user (User.set_expiration_date None (User.set_is_active false u)) d.
Proof.
  unfold login. unfold_session.
  run_all; auto.
  all: right; eexists; eexists; repeat split; try eassumption.
  all: try (apply negb_false_iff; assumption).
  all: now apply Z.ltb_lt.
Qed.

Lemma Forall2_map_self {A} (R : A -> A -> Prop) (f : A -> A) (l : list A) :
  (forall x, In x l -> R x (f x)) -> Forall2 R l (map f l).
Proof.
  induction l as [|x l IH]; intros H; cbn; constructor.
  - apply H. now left.
  - apply IH. intros y Hy. apply H. now right.
Qed.

(** X11: a login never touches the codes or the grant keys and never
    activates an account: each account is left as it was, or was active and
    is now inactive and without expiration, with its identity kept. *)
Theorem login_only_deactivates (d : Database) (username password : string)
        (now : Z) (fs : list bool) :
  schema_ok d = true ->
  let d' := snd (run_request (login dbapi verify_password isoformat username password)
                   now fs d) in
  license d' = license d /\ license_codes d' = license_codes d /\
  Forall2 (fun u u' =>
             u' = u \/
             user_kept u u' /\ User.is_active u = true /\
             User.is_active u' = false /\ User.expiration_date u' = None)
          (users d) (users d').
Proof.
  intros Hs d'.
  destruct (login_effect d username password now fs)
    as [H|(u & e & Hf & Hact & _ & _ & H)]; fold d' in H; rewrite H.
  - repeat split. rewrite <- (map_id (users d)) at 2.
    apply Forall2_map_self. intros x _. now left.
  - repeat split. unfold update_user. cbn [users].
    apply Forall2_map_self. intros r Hr.
    destruct (User.id r =? _) eqn:E; [|now left].
    apply schema_ok_iff in Hs. destruct Hs as (Hids & _).
    apply find_some in Hf. destruct Hf as [Hu _].
    assert (r = u)
      by (apply (update_meets_one User.id (users d) u
                   (User.set_expiration_date None (User.set_is_active false u)) r);
          auto).
    subst r. right. repeat split. exact Hact.
Qed.

(** ** Grant keys *)

Lemma update_user_twice (u1 u2 : User.t) (d : Database) :
  User.id u2 = User.id u1 ->
  update_user u2 (update_user u1 d) = update_user u2 d.
Proof.
  intros Hid. unfold update_user. cbn [users license license_codes]. f_equal.
  rewrite map_map. apply map_ext. intros r. rewrite Hid.
  destruct (Z.eqb_spec (User.id r) (User.id u1)) as [E|E].
  - now rewrite Z.eqb_refl.
  - destruct (Z.eqb_spec (User.id r) (User.id u1)); [contradiction|reflexivity].
Qed.

Lemma find_username_granted (d : Database) (username : string) (l : License.t)
      (now : Z) (u : User.t) :
  find_username username d = Some u ->
  find_username username (with_grant l now u d) = Some (granted l now u).
Proof.
  intros Hf. unfold with_grant. rewrite find_username_update_license.
  now apply (find_username_update d username u).
Qed.

(** The redemption of an unused grant key, by driver.  The expiration the
    route assigns carries the offset of UTC; aiosqlite stores it without
    the offset, asyncpg refuses it at the flush. *)
Lemma verify_license_cases (d : Database) (username key : string)
      (l : License.t) (u : User.t) (now : Z) (fs : list bool) :
  find_license key d = Some l ->
  License.is_used l <> 1 ->
  find_username username d = Some u ->
  Z.abs (License.duration_days l) <= 999999999 ->
  in_range (now + License.duration_days l * us_per_day) = true ->
  let done :=
    Return ("Account activated successfully",
            isoformat (mk_datetime (now + License.duration_days l * us_per_day)
                         (Some UTC))) in
  let failed := Raise (HTTPException 500 "Internal Server Error") in
  (run_request (verify_license aiosqlite isoformat username key) now fs d =
     (done, with_grant l now u d) \/
   run_request (verify_license aiosqlite isoformat username key) now fs d =
     (failed, d)) /\
  (fs = [] ->
   run_request (verify_license aiosqlite isoformat username key) now fs d =
     (done, with_grant l now u d)) /\
  run_request (verify_license asyncpg isoformat username key) now fs d =
    (failed, d).
Proof.
  intros Hl Hu Hf Habs Hrange done failed.
  assert (Hu' : (License.is_used l =? 1) = false) by now apply Z.eqb_neq.
  assert (Habs' : (Z.abs (License.duration_days l) <=? 999999999) = true)
    by now apply Z.leb_le.
  assert (Hsq : exists u1,
    User.id u1 = User.id u /\
    (fs = [] ->
     run_request (verify_license aiosqlite isoformat username key) now fs d =
       (done, update_license (License.set_is_used 1 l)
                (update_user (granted l now u) (update_user u1 d)))) /\
    (run_request (verify_license aiosqlite isoformat username key) now fs d =
       (done, update_license (License.set_is_used 1 l)
                (update_user (granted l now u) (update_user u1 d))) \/
     run_request (verify_license aiosqlite isoformat username key) now fs d =
       (failed, d))).
  { subst done failed. unfold granted.
    unfold verify_license, timedelta_days, datetime_add. unfold_session.
    destruct (User.expiration_date u) as [[t [[]|]]|] eqn:Hexp;
      run_facts;
      eexists; (split; [|split]); cycle 1;
      try (intros; discriminate);
      try (intros _; reflexivity);
      try (left; reflexivity); try (right; reflexivity);
      reflexivity. }
  destruct Hsq as (u1 & Hid & Hnil & Hany).
  rewrite update_user_twice in Hnil, Hany by (symmetry; exact Hid).
  split; [exact Hany|split; [exact Hnil|]].
  subst failed.
  unfold verify_license, timedelta_days, datetime_add. unfold_session.
  destruct (User.expiration_date u) as [[t [[]|]]|] eqn:Hexp;
    run_facts; reflexivity.
Qed.

(** X12: an unused grant key redeemed for an existing account.  On
    aiosqlite the account is stored active until now plus the duration of
    the key, the expiration without offset, and the key is stored used;
    the answer carries the expiration with the offset of UTC; whatever the
    storage does, both changes are stored or the answer is a server error
    and nothing is stored.  On asyncpg the answer is a server error and
    nothing is stored, with or without storage faults. *)
Theorem verify_license_success (d : Database) (username key : string)
        (l : License.t) (u : User.t) (now : Z) :
  find_license key d = Some l ->
  License.is_used l <> 1 ->
  find_username username d = Some u ->
  Z.abs (License.duration_days l) <= 999999999 ->
  in_range (now + License.duration_days l * us_per_day) = true ->
  let expires := now + License.duration_days l * us_per_day in
  let u' := granted l now u in
  let d' := with_grant l now u d in
  let done :=
    Return ("Account activated successfully",
            isoformat (mk_datetime expires (Some UTC))) in
  let failed := Raise (HTTPException 500 "Internal Server Error") in
  run_request (verify_license aiosqlite isoformat username key) now [] d =
    (done, d') /\
  find_username username d' = Some u' /\
  User.is_active u' = true /\
  User.expiration_date u' = Some (mk_datetime expires None) /\
  find_license key d' = Some (License.set_is_used 1 l) /\
  (forall fs,
     run_request (verify_license aiosqlite isoformat username key) now fs d =
       (done, d') \/
     run_request (verify_license aiosqlite isoformat username key) now fs d =
       (failed, d)) /\
  (forall fs,
     run_request (verify_license asyncpg isoformat username key) now fs d =
       (failed, d)).
Proof.
  intros Hl Hu Hf Habs Hrange expires u' d' done failed.
  pose proof (fun fs => verify_license_cases d username key l u now fs
                          Hl Hu Hf Habs Hrange) as H.
  cbv zeta in H.
  split; [|split; [|split; [|split; [|split; [|split]]]]].
  - exact (proj1 (proj2 (H [])) eq_refl).
  - now apply find_username_granted.
  - reflexivity.
  - reflexivity.
  - unfold d', with_grant, find_license, update_license in *. cbn [license].
    apply (find_map_hit _ (fun r => License.id r =? License.id (License.set_is_used 1 l))
             (License.set_is_used 1 l) _ l);
      [assumption|apply Z.eqb_refl|].
    apply find_some in Hl. apply Hl.
  - intros fs. exact (proj1 (H fs)).
  - intros fs. exact (proj2 (proj2 (H fs))).
Qed.

(** X13: a grant key submitted for a username that is not registered: the
    answer is 404, nothing is stored, and the key is still unused. *)
Theorem verify_license_unknown_user (d : Database) (username key : string)
        (l : License.t) (now : Z) :
  find_license key d = Some l ->
  License.is_used l <> 1 ->
  find_username username d = None ->
  run_request (verify_license dbapi isoformat username key) now [] d =
    (Raise (HTTPException 404 "User not found"), d) /\
  forall fs,
    snd (run_request (verify_license dbapi isoformat username key) now fs d) = d /\
    find_license key
      (snd (run_request (verify_license dbapi isoformat username key) now fs d))
    = Some l.
Proof.
  intros Hl Hu Hf.
  assert (Hu' : (License.is_used l =? 1) = false) by now apply Z.eqb_neq.
  assert (Hfs : forall fs,
    snd (run_request (verify_license dbapi isoformat username key) now fs d) = d)
    by (intros fs; unfold verify_license; unfold_session; run_facts; reflexivity).
  split.
  - unfold verify_license. unfold_session. run_facts. reflexivity.
  - intros fs. now rewrite Hfs.
Qed.

(** X14: a grant key whose duration the date arithmetic cannot represent:
    the answer is a server error, the account stays as it was and the key
    unused. *)
Theorem verify_license_overflow (d : Database) (username key : string)
        (l : License.t) (u : User.t) (now : Z) (fs : list bool) :
  find_license key d = Some l ->
  License.is_used l <> 1 ->
  find_username username d = Some u ->
  999999999 < Z.abs (License.duration_days l) \/
  in_range (now + License.duration_days l * us_per_day) = false ->
  run_request (verify_license dbapi isoformat username key) now fs d =
    (Raise (HTTPException 500 "Internal Server Error"), d).
Proof.
  intros Hl Hu Hf H.
  assert (Hu' : (License.is_used l =? 1) = false) by now apply Z.eqb_neq.
  destruct (Z.abs (License.duration_days l) <=? 999999999) eqn:Habs.
  - destruct H as [H|Hr]; [apply Z.leb_le in Habs; lia|].
    unfold verify_license, timedelta_days, datetime_add. unfold_session.
    run_facts; reflexivity.
  - unfold verify_license, timedelta_days, datetime_add. unfold_session.
    run_facts; reflexivity.
Qed.

(** X15: [verify_license] stores all or nothing, on either driver: when
    it raises, whatever the reason, the database is as before; when it
    returns, the driver is aiosqlite, the key was unused, the account
    exists, and exactly the activation is stored, its expiration without
    offset. *)
Theorem verify_license_all_or_nothing (d : Database) (username key : string)
        (now : Z) (fs : list bool) :
  match run_request (verify_license dbapi isoformat username key) now fs d with
  | (Raise _, d') => d' = d
  | (Return _, d') =>
      dbapi = aiosqlite /\
      exists l u,
        find_license key d = Some l /\ License.is_used l <> 1 /\
        find_username username d = Some u /\ d' = with_grant l now u d /\
        no_offset (User.expiration_date (granted l now u)) = true
  end.
Proof.
  unfold with_grant, granted.
  unfold verify_license, timedelta_days, datetime_add. unfold_session.
  run_all; try reflexivity.
  all: split; [reflexivity|].
  all: eexists; eexists; repeat split; try eassumption.
  all: try (now apply Z.eqb_neq).
  all: now rewrite update_user_twice.
Qed.

(** ** Redeem, then log in *)

(** The login of an active account with a stored expiration, before and
    after it. *)
Lemma login_window (d : Database) (username password : string) (u : User.t)
      (e : datetime) (later : Z) :
  find_username username d = Some u ->
  verify_password password (User.password u) = true ->
  User.is_active u = true ->
  User.expiration_date u = Some e ->
  run_request (login dbapi verify_password isoformat username password) later [] d =
    if later <=? instant e
    then (Return (LoginOk "Login Successful" (Some (isoformat e))), d)
    else (Return (JSONResponse 403 "Subscription expired. Please renew your license."
                    (User.id u)),
          update_user (User.set_expiration_date None (User.set_is_active false u)) d).
Proof.
  intros Hf Hpw Hact He.
  destruct (later <=? instant e) eqn:Hle.
  - assert (Hlt : (instant e <? later) = false)
      by (apply Z.ltb_ge; now apply Z.leb_le).
    unfold login. unfold_session. run_facts. reflexivity.
  - assert (Hlt : (instant e <? later) = true)
      by (apply Z.ltb_lt; apply Z.leb_gt in Hle; lia).
    unfold login. unfold_session. run_facts. reflexivity.
Qed.

(** X16: the access a grant key gives, on aiosqlite, where the redemption
    succeeds: after the key was redeemed at [now], the account logs in at
    every instant up to now plus the duration of the key, and is told its
    expiration as it is stored, without offset; the first login after that
    is refused as expired and stores the account inactive.  With a
    duration of zero or less there is no later instant at which the
    account logs in. *)
Theorem grant_access_window (d : Database) (username password key : string)
        (l : License.t) (u : User.t) (now later : Z) :
  find_license key d = Some l ->
  License.is_used l <> 1 ->
  find_username username d = Some u ->
  Z.abs (License.duration_days l) <= 999999999 ->
  in_range (now + License.duration_days l * us_per_day) = true ->
  verify_password password (User.password u) = true ->
  let expires := now + License.duration_days l * us_per_day in
  let d' :=
    snd (run_request (verify_license aiosqlite isoformat username key) now [] d) in
  let r := run_request (login dbapi verify_password isoformat username password)
             later [] d' in
  (later <= expires ->
   r = (Return (LoginOk "Login Successful"
                  (Some (isoformat (mk_datetime expires None)))), d')) /\
  (expires < later ->
   fst r = Return (JSONResponse 403
                     "Subscription expired. Please renew your license."
                     (User.id u)) /\
   exists u', find_username username (snd r) = Some u' /\
              User.is_active u' = false /\ User.expiration_date u' = None) /\
  (License.duration_days l <= 0 -> now < later -> expires < later).
Proof.
  intros Hl Hu Hf Habs Hrange Hpw expires d' r.
  assert (Hd' : d' = with_grant l now u d).
  { unfold d'.
    now rewrite (proj1 (proj2 (verify_license_cases d username key l u now []
                                 Hl Hu Hf Habs Hrange)) eq_refl). }
  assert (Hf' : find_username username d' = Some (granted l now u))
    by (rewrite Hd'; now apply find_username_granted).
  assert (Hr : r = if later <=? expires
                   then (Return (LoginOk "Login Successful"
                           (Some (isoformat (mk_datetime expires None)))), d')
                   else (Return (JSONResponse 403
                                   "Subscription expired. Please renew your license."
                                   (User.id u)),
                         update_user
                           (User.set_expiration_date None
                              (User.set_is_active false (granted l now u))) d'))
    by (apply (login_window d' username password (granted l now u)
                 (mk_datetime expires None) later Hf' Hpw);
        reflexivity).
  split; [|split].
  - intros Hle. apply Z.leb_le in Hle. now rewrite Hr, Hle.
  - intros Hlt. apply Z.leb_gt in Hlt. rewrite Hr, Hlt. cbn [fst snd].
    split; [reflexivity|].
    exists (User.set_expiration_date None
              (User.set_is_active false (granted l now u))).
    split; [|split; reflexivity].
    now apply (find_username_update d' username (granted l now u)).
  - intros Hd Hlater. unfold expires, us_per_day. lia.
Qed.

Lemma activate_code_run (d : Database) (code : string) (now : Z)
      (c : LicenseCode.t) (e : datetime) (u : User.t) :
  find_code code d = Some c ->
  LicenseCode.is_used c = false ->
  LicenseCode.expires_at c = Some e ->
  tzinfo e = None ->
  now <= instant e ->
  find_user (User.id u) d = Some u ->
  run_request (activate_code dbapi isoformat code (User.id u)) now [] d =
    (Return (true, "License activated successfully", Some (isoformat e)),
     with_redemption c u d).
Proof.
  intros Hc Hu He Htz Hnow Hus.
  assert (Hlt : (instant e <? now) = false) by (apply Z.ltb_ge; lia).
  unfold with_redemption, redeemed_by.
  unfold activate_code, validate_code. unfold_session.
  run_facts. reflexivity.
Qed.

(** X17: the access a code gives: after the code was redeemed, at whatever
    instant before its expiration, the account logs in at every instant up
    to the [expires_at] the code got at its creation, and the first login
    after that is refused as expired and stores the account inactive. *)
Theorem code_access_window (d : Database) (code username password : string)
        (c : LicenseCode.t) (e : datetime) (u : User.t) (now later : Z) :
  find_code code d = Some c ->
  LicenseCode.is_used c = false ->
  LicenseCode.expires_at c = Some e ->
  tzinfo e = None ->
  now <= instant e ->
  find_user (User.id u) d = Some u ->
  find_username username d = Some u ->
  verify_password password (User.password u) = true ->
  let d' := snd (run_request (activate_code dbapi isoformat code (User.id u)) now [] d) in
  let r := run_request (login dbapi verify_password isoformat username password)
             later [] d' in
  (later <= instant e ->
   r = (Return (LoginOk "Login Successful" (Some (isoformat e))), d')) /\
  (instant e < later ->
   fst r = Return (JSONResponse 403
                     "Subscription expired. Please renew your license."
                     (User.id u)) /\
   exists u', find_username username (snd r) = Some u' /\
              User.is_active u' = false /\ User.expiration_date u' = None).
Proof.
  intros Hc Hu He Htz Hnow Hus Hf Hpw d' r.
  assert (Hd' : d' = with_redemption c u d)
    by (unfold d'; now rewrite (activate_code_run d code now c e u)).
  assert (Hf' : find_username username d' = Some (redeemed_by c u)).
  { rewrite Hd'. unfold with_redemption.
    apply (find_username_update (update_license_code _ d) username u);
      [exact Hf|reflexivity..]. }
  assert (Hr : r = if later <=? instant e
                   then (Return (LoginOk "Login Successful" (Some (isoformat e))), d')
                   else (Return (JSONResponse 403
                                   "Subscription expired. Please renew your license."
                                   (User.id u)),
                         update_user
                           (User.set_expiration_date None
                              (User.set_is_active false (redeemed_by c u))) d'))
    by (apply (login_window d' username password (redeemed_by c u) e later Hf' Hpw);
        [reflexivity|exact He]).
  split.
  - intros Hle. apply Z.leb_le in Hle. now rewrite Hr, Hle.
  - intros Hlt. apply Z.leb_gt in Hlt. rewrite Hr, Hlt. cbn [fst snd].
    split; [reflexivity|].
    exists (User.set_expiration_date None
              (User.set_is_active false (redeemed_by c u))).
    split; [|split; reflexivity].
    now apply (find_username_update d' username (redeemed_by c u)).
Qed.

(** ** Registration *)

Lemma find_username_with_user (u : User.t) (d : Database) :
  find_username (User.username u) d = None ->
  find_username (User.username u) (with_user u d) = Some u.
Proof.
  intros H. unfold find_username, with_user in *. cbn [users].
  rewrite find_app_miss by assumption. cbn. now rewrite String.eqb_refl.
Qed.

(** [signup] of a new username: the outcome for every schedule of storage
    faults. *)
Lemma signup_cases (d : Database) (username password : string) (now : Z)
      (fs : list bool) :
  find_username username d = None ->
  let u := registered username (hash_password password) d in
  let r := run_request (signup dbapi hash_password username password) now fs d in
  (fs = [] -> r = (Return ("User Created Successfully", User.id u), with_user u d)) /\
  (snd r = d \/ snd r = with_user u d) /\
  (fst r = Return ("User Created Successfully", User.id u) \/
   fst r = Raise (HTTPException 500 "Internal Server Error")).
Proof.
  intros Hf u r.
  assert (Hu : find_username username (with_user u d) = Some u)
    by (apply (find_username_with_user u d); exact Hf).
  subst r. unfold signup. unfold_session.
  repeat (run_step || use_facts
          || match goal with
             | |- context [find_username ?k (mk_Database ?a ?b ?l)] =>
                 change (find_username k (mk_Database a b l))
                   with (find_username username (with_user u d));
                 rewrite Hu
             end).
  all: repeat split; try discriminate; auto.
Qed.

(** X18: a new username registers: the account is stored inactive, without
    expiration, with the hashed password and a fresh id, which is returned;
    whatever the storage does, this account is stored or nothing. *)
Theorem signup_success (d : Database) (username password : string) (now : Z) :
  find_username username d = None ->
  let u := registered username (hash_password password) d in
  run_request (signup dbapi hash_password username password) now [] d =
    (Return ("User Created Successfully", User.id u), with_user u d) /\
  find_username username (with_user u d) = Some u /\
  find_user (User.id u) d = None /\
  User.is_active u = false /\ User.expiration_date u = None /\
  User.password u = hash_password password /\
  forall fs,
    snd (run_request (signup dbapi hash_password username password) now fs d) = d \/
    snd (run_request (signup dbapi hash_password username password) now fs d)
    = with_user u d.
Proof.
  intros Hf u. split; [|split; [|split; [|split; [|split; [|split]]]]];
    try reflexivity.
  - now apply (signup_cases d username password now []).
  - apply (find_username_with_user u d). exact Hf.
  - unfold find_user.
    destruct (find (fun r => User.id r =? User.id u) (users d)) as [r|] eqn:E;
      [|reflexivity].
    apply find_some in E. destruct E as [Hr E]. apply Z.eqb_eq in E.
    exfalso. apply (next_id_fresh (map User.id (users d))).
    change (next_id (map User.id (users d))) with (User.id u).
    rewrite <- E. now apply in_map.
  - intros fs. now apply (signup_cases d username password now fs).
Qed.

(** X19: a username that is taken is refused with 409, and nothing is
    stored. *)
Theorem signup_username_taken (d : Database) (username password : string)
        (u : User.t) (now : Z) :
  find_username username d = Some u ->
  run_request (signup dbapi hash_password username password) now [] d =
    (Raise (HTTPException 409 "Username already exists"), d) /\
  forall fs,
    snd (run_request (signup dbapi hash_password username password) now fs d) = d.
Proof.
  intros Hf. unfold signup. unfold_session. split; try intros fs;
    run_facts; reflexivity.
Qed.

(** X20: register, then log in with the same password: when the hash
    verifies, the login is refused as not activated and carries the id that
    the registration returned; another password is refused as invalid
    credentials. *)
Theorem signup_then_login (d : Database) (username password : string)
        (now later : Z) :
  find_username username d = None ->
  verify_password password (hash_password password) = true ->
  exists user_id d',
    run_request (signup dbapi hash_password username password) now [] d =
      (Return ("User Created Successfully", user_id), d') /\
    run_request (login dbapi verify_password isoformat username password) later [] d' =
      (Return (JSONResponse 403
                 "Account not activated. Please enter activation code." user_id),
       d') /\
    forall other,
      verify_password other (hash_password password) = false ->
      run_request (login dbapi verify_password isoformat username other) later [] d' =
        (Raise (HTTPException 401 "Invalid Credentials"), d').
Proof.
  intros Hf Hpw.
  set (u := registered username (hash_password password) d).
  exists (User.id u), (with_user u d).
  assert (Hu : find_username username (with_user u d) = Some u)
    by (apply (find_username_with_user u d); exact Hf).
  split; [now apply (signup_cases d username password now [])|].
  assert (Hp : User.password u = hash_password password) by reflexivity.
  assert (Ha : User.is_active u = false) by reflexivity.
  assert (Hi : User.id u = User.id u) by reflexivity.
  clearbody u.
  split.
  - rewrite <- Hp in Hpw. unfold login. unfold_session. run_facts. reflexivity.
  - intros other Ho. rewrite <- Hp in Ho.
    unfold login. unfold_session. run_facts. reflexivity.
Qed.

(** ** Batches of codes *)

Lemma generate_loop_appends (draws : nat -> nat -> nat) (ticks : nat -> Z)
      (days : Z) (k : nat) :
  forall (i : nat) (st : Database) (clk : Z) (fs : list bool),
    let r := generate_loop dbapi draws ticks i k days (mk_Session st st [] clk fs) in
    txn (snd r) = stored (snd r) /\ inserts (snd r) = [] /\
    exists cs,
      license_codes (stored (snd r)) = (license_codes st ++ cs)%list /\
      users (stored (snd r)) = users st /\ license (stored (snd r)) = license st /\
      (List.length cs <= k)%nat /\
      created_at_readings days (readings ticks i k clk) cs /\
      forall out, fst r = Return out -> out = cs /\ List.length cs = k.
Proof.
  unfold created_at_readings.
  induction k as [|k IH]; intros i st clk fs; cbv zeta.
  - cbn. split; [reflexivity|]. split; [reflexivity|].
    exists []. rewrite app_nil_r.
    split; [reflexivity|]. split; [reflexivity|]. split; [reflexivity|].
    split; [cbn; lia|]. split; [constructor|].
    intros out H. injection H as <-. split; reflexivity.
  - cbn [generate_loop]. rewrite bind_run.
    pose proof (create_license_code_cases (draws i) days st clk fs) as H.
    cbv zeta in H.
    destruct (create_license_code dbapi (draws i) days (mk_Session st st [] clk fs))
      as [[c|e] [st1 tx1 ins1 clk1 fs1]]; cbn [fst snd txn stored inserts clock] in H;
      destruct H as (-> & -> & -> & H).
    + destruct H as (-> & -> & Hfree).
      set (c := created_code (draws i) days clk st).
      assert (Hc0 : fresh_code clk days c) by (repeat split).
      rewrite bind_run. cbn [elapse stored txn inserts clock faults].
      rewrite bind_run.
      specialize (IH (S i) (with_code c st) (clk + ticks i) fs1). cbv zeta in IH.
      destruct (generate_loop dbapi draws ticks (S i) k days
                  (mk_Session (with_code c st) (with_code c st) []
                     (clk + ticks i) fs1))
        as [[cs|e] s2]; cbn [fst snd] in *;
        destruct IH as (H1 & H2 & cs' & Hc & Hu & Hl & Hlen & Hfresh & Hout);
        cbn [license_codes users license with_code] in Hc, Hu, Hl;
        unfold ret; cbn [fst snd];
        (split; [exact H1|]); (split; [exact H2|]);
        exists (c :: cs'); rewrite Hc, <- app_assoc; cbn [app];
        (split; [reflexivity|]); (split; [exact Hu|]); (split; [exact Hl|]);
        (split; [cbn; lia|]);
        (split; [cbn [List.length readings firstn]; now constructor|]);
        intros out H; [|discriminate].
      destruct (Hout cs eq_refl) as [-> Hk].
      injection H as <-. split; [reflexivity|cbn; lia].
    + cbn [fst snd txn stored inserts clock].
      split; [reflexivity|]. split; [reflexivity|].
      destruct H as ([->|[-> Hfree]] & _).
      * exists []. rewrite app_nil_r.
        split; [reflexivity|]. split; [reflexivity|]. split; [reflexivity|].
        split; [cbn; lia|]. split; [constructor|]. intros out H. discriminate.
      * exists [created_code (draws i) days clk st].
        split; [reflexivity|]. split; [reflexivity|]. split; [reflexivity|].
        split; [cbn; lia|].
        split; [cbn [List.length readings firstn];
                constructor; [repeat split|constructor]|].
        intros out H. discriminate.
Qed.

(** X21: a batch only appends: whatever the outcome, the codes stored
    afterwards are the codes stored before followed by at most [count] new
    ones, and accounts and grant keys are untouched.  Every creation reads
    the clock anew: the new codes are unused, and each has the reading of
    its own creation as [created_at] and expires [duration_days] days
    after it.  When the batch returns, it returns exactly the new codes,
    and there are [count] of them. *)
Theorem generate_multiple_codes_appends (draws : nat -> nat -> nat)
        (ticks : nat -> Z) (count duration_days now : Z) (fs : list bool)
        (d : Database) :
  let r := run_request (generate_multiple_codes dbapi draws ticks count duration_days)
             now fs d in
  exists cs,
    license_codes (snd r) = (license_codes d ++ cs)%list /\
    users (snd r) = users d /\ license (snd r) = license d /\
    (List.length cs <= Z.to_nat count)%nat /\
    created_at_readings duration_days
      (readings ticks 0 (Z.to_nat count) now) cs /\
    forall out, fst r = Return out -> out = cs /\ List.length cs = Z.to_nat count.
Proof.
  cbv zeta. unfold generate_multiple_codes. rewrite run_request_eq.
  unfold try_except.
  pose proof (generate_loop_appends draws ticks duration_days (Z.to_nat count)
                0 d now fs)
    as H. cbv zeta in H.
  destruct (generate_loop dbapi draws ticks 0 (Z.to_nat count) duration_days
              (mk_Session d d [] now fs)) as [[out|e] s]; cbn [fst snd] in *;
    destruct H as (_ & _ & cs & H1 & H2 & H3 & H4 & H5 & H6);
    exists cs;
    (split; [exact H1|]); (split; [exact H2|]); (split; [exact H3|]);
    (split; [exact H4|]); (split; [exact H5|]);
    intros out' H; [apply H6; exact H|discriminate].
Qed.

(** X22: a batch of no codes, or of a negative number of codes, returns the
    empty list and stores nothing. *)
Theorem generate_multiple_codes_none (draws : nat -> nat -> nat)
        (ticks : nat -> Z) (count duration_days now : Z) (fs : list bool) (d : Database) :
  count <= 0 ->
  run_request (generate_multiple_codes dbapi draws ticks count duration_days) now fs d =
    (Return [], d).
Proof.
  intros H. unfold generate_multiple_codes.
  replace (Z.to_nat count) with 0%nat by lia. reflexivity.
Qed.

(** X23: a batch is not one transaction: when the second token drawn repeats
    the first, the answer is a server error, and the first code is stored
    all the same. *)
Theorem generate_multiple_codes_partial (draws : nat -> nat -> nat)
        (ticks : nat -> Z) (count duration_days now : Z) (d : Database) :
  2 <= count ->
  generate_code (draws 1%nat) 16 = generate_code (draws 0%nat) 16 ->
  Z.abs duration_days <= 999999999 ->
  in_range (now + duration_days * us_per_day) = true ->
  find_code (generate_code (draws 0%nat) 16) d = None ->
  exists msg,
    run_request (generate_multiple_codes dbapi draws ticks count duration_days) now [] d =
      (Raise (HTTPException 500 msg),
       with_code (created_code (draws 0%nat) duration_days now d) d).
Proof.
  intros Hcount Hsame Habs Hrange Hfree.
  assert (Hdup : find_code (generate_code (draws 1%nat) 16)
                   (with_code (created_code (draws 0%nat) duration_days now d) d)
                 = Some (created_code (draws 0%nat) duration_days now d))
    by (rewrite Hsame;
        apply (find_code_with_code
                 (created_code (draws 0%nat) duration_days now d) d);
        exact Hfree).
  unfold generate_multiple_codes. rewrite run_request_eq. unfold try_except.
  destruct (Z.to_nat count) as [|[|k]] eqn:Hk; try lia.
  cbn [generate_loop]. rewrite bind_run.
  destruct (create_license_code_session (draws 0%nat) duration_days d now []
              Habs Hrange Hfree) as [(fs' & H & Hfs)|[_ H]]; [|congruence].
  rewrite H, (Hfs eq_refl). cbn iota. rewrite bind_run.
  cbn [elapse stored txn inserts clock faults]. rewrite !bind_run.
  remember (created_code (draws 0%nat) duration_days now d) as c eqn:Ec.
  pose proof (create_license_code_cases (draws 1%nat) duration_days
                (with_code c d) (now + ticks 0%nat) []) as Hc. cbv zeta in Hc.
  destruct (create_license_code dbapi (draws 1%nat) duration_days
              (mk_Session (with_code c d) (with_code c d) [] (now + ticks 0%nat) []))
    as [[c'|e] s]; cbn [fst snd] in *; destruct Hc as (_ & _ & _ & Hc).
  - destruct Hc as (_ & _ & Hc). congruence.
  - destruct Hc as ([Hc|[_ Hc]] & msg & ->); [|congruence].
    eexists. cbn. rewrite Hc. reflexivity.
Qed.

(** ** The login view on the answers of the session gate *)

(** The login route raises nothing but [HTTPException]. *)
Lemma login_raises_http (d : Database) (username password : string) (now : Z)
      (fs : list bool) (e : exn) :
  fst (run_request (login dbapi verify_password isoformat username password) now fs d)
  = Raise e ->
  is_HTTPException e = true.
Proof.
  unfold login. unfold_session.
  run_all; intros H; try discriminate; injection H as <-; reflexivity.
Qed.

(** X24: the client tells the two refusals of the session gate apart: the
    login that finds the subscription expired shows the message of the
    server and opens no activation dialog; the next login is refused as not
    activated and opens the activation dialog for the account's id. *)
Theorem expired_login_then_dialog (lower : string -> string) (d : Database)
        (username password entry : string) (u : User.t) (e : datetime)
        (now later : Z) :
  lower "Subscription expired. Please renew your license."
    = "subscription expired. please renew your license." ->
  lower "Account not activated. Please enter activation code."
    = "account not activated. please enter activation code." ->
  find_username username d = Some u ->
  verify_password password (User.password u) = true ->
  User.is_active u = true ->
  User.expiration_date u = Some e ->
  instant e < now ->
  User.id u <> 0 ->
  let first := run_request (login dbapi verify_password isoformat username password)
                 now [] d in
  let second := run_request (login dbapi verify_password isoformat username password)
                  later [] (snd first) in
  login_action_response lower entry (login_http (fst first))
    = ErrorLabel "Subscription expired. Please renew your license." /\
  login_action_response lower entry (login_http (fst second))
    = LicenseDialog entry (User.id u).
Proof.
  intros Hl1 Hl2 Hf Hpw Hact He Hlt Hid first second.
  assert (Hfirst : first =
    (Return (JSONResponse 403 "Subscription expired. Please renew your license."
               (User.id u)),
     update_user (User.set_expiration_date None (User.set_is_active false u)) d)).
  { unfold first. rewrite (login_window d username password u e now Hf Hpw Hact He).
    assert (E : (now <=? instant e) = false) by (apply Z.leb_gt; lia).
    now rewrite E. }
  set (u' := User.set_expiration_date None (User.set_is_active false u)) in *.
  assert (Hf' : find_username username (update_user u' d) = Some u')
    by (now apply (find_username_update d username u)).
  assert (Hsecond : fst second =
    Return (JSONResponse 403 "Account not activated. Please enter activation code."
              (User.id u))).
  { unfold second. rewrite Hfirst. cbn [snd].
    assert (Hpw' : verify_password password (User.password u') = true) by exact Hpw.
    assert (Ha' : User.is_active u' = false) by reflexivity.
    assert (Hi' : User.id u' = User.id u) by reflexivity.
    rewrite <- Hi'. clearbody u'.
    unfold login. unfold_session. run_facts. reflexivity. }
  rewrite Hfirst, Hsecond. cbn [fst].
  unfold login_action_response, login_http, _handle_activation_required,
    _handle_login_error. cbn [rd_detail rd_user_id Z.eqb Pos.eqb].
  rewrite Hl1, Hl2.
  apply Z.eqb_neq in Hid. rewrite Hid.
  split; reflexivity.
Qed.

End More.

(** ** The listing *)

Lemma in_firstn {A} (n : nat) (l : list A) (x : A) : In x (firstn n l) -> In x l.
Proof. intros H. rewrite <- (firstn_skipn n l). apply in_or_app. now left. Qed.

Lemma in_skipn {A} (n : nat) (l : list A) (x : A) : In x (skipn n l) -> In x l.
Proof. intros H. rewrite <- (firstn_skipn n l). apply in_or_app. now right. Qed.

(** X25: the listing with a skip and a limit that are not negative and
    that the driver binds as integers answers with rows of the table, as
    many as the limit allows of those after the skip: the whole table when
    nothing is skipped and the limit is not below its size (100 by
    default), nothing when the skip is not below its size.  A skip or a
    limit out of the driver's range of integers is refused and the route
    raises.  The listing stores nothing, whatever the storage does. *)
Theorem list_license_codes_page (dbapi : driver)
        (negative_page : Z -> Z -> list LicenseCode.t -> outcome (list LicenseCode.t))
        (skip limit now : Z) (d : Database) :
  0 <= skip -> 0 <= limit ->
  INTEGER_ok dbapi skip = true -> INTEGER_ok dbapi limit = true ->
  let size := Z.of_nat (List.length (license_codes d)) in
  exists page,
    run_request (list_license_codes dbapi negative_page skip limit) now [] d
      = (Return page, d) /\
    Z.of_nat (List.length page) = Z.min limit (Z.max 0 (size - skip)) /\
    (forall c, In c page -> In c (license_codes d)) /\
    (skip = 0 -> size <= limit -> page = license_codes d) /\
    (size <= skip -> page = []) /\
    (forall fs,
       snd (run_request (list_license_codes dbapi negative_page skip limit)
              now fs d) = d) /\
    (forall skip' limit' fs,
       INTEGER_ok dbapi skip' && INTEGER_ok dbapi limit' = false ->
       run_request (list_license_codes dbapi negative_page skip' limit') now fs d
       = (Raise (out_of_range dbapi), d)).
Proof.
  intros Hs Hl Is Il size.
  exists (firstn (Z.to_nat limit) (skipn (Z.to_nat skip) (license_codes d))).
  assert (E1 : (0 <=? skip) = true) by now apply Z.leb_le.
  assert (E2 : (0 <=? limit) = true) by now apply Z.leb_le.
  split; [|split; [|split; [|split; [|split; [|split]]]]].
  - unfold list_license_codes. rewrite Is, Il. unfold_session. cbn.
    now rewrite E1, E2.
  - rewrite length_firstn, length_skipn. unfold size. lia.
  - intros c Hc. apply in_firstn in Hc. now apply in_skipn in Hc.
  - intros -> Hlen. cbn. apply firstn_all2. unfold size in Hlen. lia.
  - intros Hlen. rewrite skipn_all2 by (unfold size in Hlen; lia).
    apply firstn_nil.
  - intros fs. unfold list_license_codes. rewrite Is, Il. unfold_session.
    repeat (run_step || rewrite E1 || rewrite E2); reflexivity.
  - intros skip' limit' fs H. unfold list_license_codes. rewrite H.
    reflexivity.
Qed.

(** ** The desktop client *)

(** X26: [center_window] keeps a window that fits on the screen inside the
    screen, with margins that differ by one pixel at most; a window two
    pixels or more larger than the screen gets a negative offset. *)
Theorem center_offset_fits (screen size : Z) :
  let x := center_offset screen size in
  (0 <= size <= screen ->
   0 <= x /\ x + size <= screen /\ -1 <= (screen - (x + size)) - x <= 1) /\
  (screen + 1 < size -> x < 0).
Proof.
  unfold center_offset. cbv zeta. split; intros H; Z.div_mod_to_equations; lia.
Qed.

(** X27: the countdown of a naive expiration in the future shows days, hours,
    minutes and seconds that add up to the whole seconds left, with hours
    below 24 and minutes and seconds below 60; at the expiration and after
    it, it shows that the subscription is expired. *)
Theorem update_countdown_parts (fromisoformat : string -> outcome datetime)
        (expiration_date : string) (e : datetime) (now : Z) :
  fromisoformat expiration_date = Return e ->
  tzinfo e = None ->
  (now < instant e ->
   exists days hours minutes seconds,
     update_countdown fromisoformat expiration_date now =
       "Time left: " ++ string_of_Z days ++ "d " ++ string_of_Z hours ++ "h "
       ++ string_of_Z minutes ++ "m " ++ string_of_Z seconds ++ "s" /\
     0 <= days /\ 0 <= hours < 24 /\ 0 <= minutes < 60 /\ 0 <= seconds < 60 /\
     ((days * 24 + hours) * 60 + minutes) * 60 + seconds
     = (instant e - now) / 1000000) /\
  (instant e <= now ->
   update_countdown fromisoformat expiration_date now = "Expired!").
Proof.
  intros Hp Htz. unfold update_countdown, datetime_sub. rewrite Hp, Htz.
  cbn [tzinfo instant]. split.
  - intros Hlt.
    assert (E : (0 <? instant e - now) = true) by (apply Z.ltb_lt; lia).
    rewrite E.
    eexists. eexists. eexists. eexists. split; [reflexivity|].
    unfold us_per_day.
    assert (Hpos : 0 < instant e - now) by lia. revert Hpos.
    generalize (instant e - now). clear. intros delta Hpos.
    Z.div_mod_to_equations. lia.
  - intros Hle.
    assert (E : (0 <? instant e - now) = false) by (apply Z.ltb_ge; lia).
    now rewrite E.
Qed.

(** X28: the countdown of an offset-aware expiration, as the redemption of a
    grant key produces it, never shows the time left: the aware value
    cannot be subtracted from the naive local clock.  A text that
    [fromisoformat] does not read gives the same message. *)
Theorem update_countdown_unknown (fromisoformat : string -> outcome datetime)
        (expiration_date : string) (now : Z) :
  (exists e, fromisoformat expiration_date = Return e /\ tzinfo e = Some UTC) \/
  (exists x, fromisoformat expiration_date = Raise x) ->
  update_countdown fromisoformat expiration_date now = "Unknown expiration".
Proof.
  unfold update_countdown, datetime_sub.
  intros [(e & -> & Htz)|(x & ->)]; [|reflexivity].
  cbn [tzinfo]. now rewrite Htz.
Qed.

(** * The convention of the stored timestamps *)

Section Timestamps.

Variable dbapi : driver.
Variable hash_password : string -> string.
Variable verify_password : string -> string -> bool.
Variable isoformat : datetime -> string.



End Timestamps.

(** * More runs on the sample data *)

(** Witness of [create_license_code_collision]: the random source draws the
    token of the stored code again. *)
Lemma create_license_code_collision_witness :
  find_code (generate_code draws 16) db1 = Some code0 /\
  exists msg,
    run_request (generate_license_code aiosqlite draws 30) (T0 + days 1) [] db1 =
      (Raise (HTTPException 500 ("Failed to create license code: " ++ msg)), db1).
Proof.
  split; [reflexivity|].
  destruct (create_license_code_collision aiosqlite draws 30 (T0 + days 1) db1 code0 []
              eq_refl) as (msg & _ & H).
  exists msg. exact H.
Defined.

(** Witness of [create_license_code_overflow]: a duration of a thousand
    million days. *)
Lemma create_license_code_overflow_witness :
  999999999 < Z.abs 1000000000 /\
  exists msg,
    run_request (create_license_code aiosqlite draws 1000000000) T0 [] db0 =
      (Raise (Exception ("Failed to create license code: " ++ msg)), db0).
Proof.
  split; [reflexivity|].
  destruct (create_license_code_overflow aiosqlite draws 1000000000 T0 db0 []
              (or_introl eq_refl)) as (msg & H & _).
  exists msg. exact H.
Defined.

(** Witness of [created_code_validity]: the code of 30 days, validated the
    day after its creation. *)
Lemma created_code_validity_witness :
  find_code (generate_code draws 16) db0 = None /\
  run_request (validate_code isoformat "ABCDEFGHIJKLMNOP") (T0 + days 1) [] db1 =
    (Return (true, "License code is valid", Some "naive"), db1).
Proof.
  split; [reflexivity|].
  refine (proj1 (proj2 (created_code_validity aiosqlite isoformat draws 30 T0 db0
                          _ eq_refl eq_refl)) (T0 + days 1) _);
    vm_compute; discriminate.
Defined.

(** Witness of [activate_code_refuses_like_validate]: the used code. *)
Lemma activate_code_refuses_like_validate_witness :
  run_request (validate_code isoformat "ABCDEFGHIJKLMNOP") (T0 + days 2) [] db2 =
    (Return (false, "License code already used", None), db2) /\
  run_request (activate_license_code aiosqlite isoformat "ABCDEFGHIJKLMNOP" 2)
    (T0 + days 2) [] db2 =
    (Raise (HTTPException 400 "License code already used"), db2).
Proof.
  split; [reflexivity|].
  exact (proj1 (proj2 (activate_code_refuses_like_validate aiosqlite isoformat db2
                         "ABCDEFGHIJKLMNOP" 2 (T0 + days 2)
                         "License code already used" None eq_refl))).
Defined.

(** Witnesses of the invariants of the service, on the later requests. *)
Lemma service_keeps_schema_witness :
  schema_ok db2 = true /\ schema_ok (served db2) = true.
Proof.
  split; [reflexivity|].
  exact (service_keeps_schema aiosqlite hash_password verify_password isoformat history db2
           eq_refl).
Defined.

Lemma service_keeps_redemptions_witness :
  redemptions_ok db2 = true /\ redemptions_ok (served db2) = true.
Proof.
  split; [reflexivity|].
  exact (service_keeps_redemptions aiosqlite hash_password verify_password isoformat
           history db2 eq_refl).
Defined.

Lemma service_keeps_rows_witness :
  schema_ok db2 = true /\ rows_kept db2 (served db2).
Proof.
  split; [reflexivity|].
  exact (service_keeps_rows aiosqlite hash_password verify_password isoformat history db2
           eq_refl).
Defined.

(** Witness of [login_invalid_credentials]: a wrong password for alice. *)
Lemma login_invalid_credentials_witness :
  verify_password "guess" (User.password alice) = false /\
  run_request (login_as "alice" "guess") (T0 + days 1) [] db1 =
    (Raise (HTTPException 401 "Invalid Credentials"), db1).
Proof.
  split; [reflexivity|].
  refine (proj1 (login_invalid_credentials aiosqlite verify_password isoformat db1
                   "alice" "guess" (T0 + days 1) _)).
  right. exists alice. split; reflexivity.
Defined.

(** Witness of [login_success]: alice, active, at the instant of her
    expiration. *)
Lemma login_success_witness :
  find_username "alice" db2 = Some alice_active /\
  run_request (login_as "alice" "secret") (T0 + days 30) [] db2 =
    (Return (LoginOk "Login Successful" (Some "naive")), db2).
Proof.
  split; [reflexivity|].
  refine (proj1 (login_success aiosqlite verify_password isoformat db2 "alice" "secret"
                   alice_active (T0 + days 30) eq_refl eq_refl eq_refl _)).
  intros e He. injection He as <-. vm_compute. discriminate.
Defined.

(** Witness of [login_only_deactivates]: alice logs in after her
    expiration. *)
Lemma login_only_deactivates_witness :
  schema_ok db2 = true /\
  license_codes (snd (run_request (login_as "alice" "secret") (T0 + days 31) [] db2))
  = license_codes db2.
Proof.
  split; [reflexivity|].
  exact (proj1 (proj2 (login_only_deactivates aiosqlite verify_password isoformat db2
                         "alice" "secret" (T0 + days 31) [] eq_refl))).
Defined.

(** Witness of [verify_license_success]: alice redeems the grant key, on
    either driver. *)
Lemma verify_license_success_witness :
  find_license "K" db0 = Some K /\
  run_request (verify_license aiosqlite isoformat "alice" "K") T0 [] db0 =
    (Return ("Account activated successfully", "aware+00:00"), db3) /\
  option_map User.expiration_date (find_username "alice" db3) =
    Some (Some (mk_datetime (T0 + days 30) None)) /\
  run_request (verify_license asyncpg isoformat "alice" "K") T0 [] db0 =
    (Raise (HTTPException 500 "Internal Server Error"), db0).
Proof.
  split; [reflexivity|].
  assert (H1 : License.is_used K <> 1) by discriminate.
  assert (H2 : Z.abs (License.duration_days K) <= 999999999)
    by (vm_compute; discriminate).
  pose proof (verify_license_success isoformat db0 "alice" "K" K alice T0
                eq_refl H1 eq_refl H2 eq_refl) as H.
  cbv zeta in H.
  split; [exact (proj1 H)|]. split; [reflexivity|].
  exact (proj2 (proj2 (proj2 (proj2 (proj2 (proj2 H))))) []).
Defined.

(** Witness of [verify_license_unknown_user]: the key submitted for a
    username that is not registered. *)
Lemma verify_license_unknown_user_witness :
  find_username "bob" db0 = None /\
  run_request (verify_license aiosqlite isoformat "bob" "K") T0 [] db0 =
    (Raise (HTTPException 404 "User not found"), db0).
Proof.
  split; [reflexivity|].
  refine (proj1 (verify_license_unknown_user aiosqlite isoformat db0 "bob" "K" K T0
                   eq_refl _ eq_refl)).
  discriminate.
Defined.

(** Witness of [verify_license_overflow]: the key of a thousand million
    days. *)
Lemma verify_license_overflow_witness :
  find_license "L" db4 = Some K_long /\
  run_request (verify_license aiosqlite isoformat "alice" "L") T0 [] db4 =
    (Raise (HTTPException 500 "Internal Server Error"), db4).
Proof.
  split; [reflexivity|].
  refine (verify_license_overflow aiosqlite isoformat db4 "alice" "L" K_long alice T0 []
            eq_refl _ eq_refl (or_introl _)).
  - discriminate.
  - reflexivity.
Defined.

(** Witness of [grant_access_window]: alice redeems the key of 30 days and
    logs in 30 days later. *)
Lemma grant_access_window_witness :
  verify_password "secret" (User.password alice) = true /\
  run_request (login_as "alice" "secret") (T0 + days 30) [] db3 =
    (Return (LoginOk "Login Successful" (Some "naive")), db3).
Proof.
  split; [reflexivity|].
  refine (proj1 (grant_access_window aiosqlite verify_password isoformat db0 "alice" "secret"
                   "K" K alice T0 (T0 + days 30)
                   eq_refl _ eq_refl _ eq_refl eq_refl) _).
  - discriminate.
  - vm_compute. discriminate.
  - vm_compute. discriminate.
Defined.

(** Witness of [code_access_window]: alice redeems the code on the second
    day and logs in on the thirtieth. *)
Lemma code_access_window_witness :
  find_code "ABCDEFGHIJKLMNOP" db1 = Some code0 /\
  run_request (login_as "alice" "secret") (T0 + days 30) [] db2 =
    (Return (LoginOk "Login Successful" (Some "naive")), db2).
Proof.
  split; [reflexivity|].
  refine (proj1 (code_access_window aiosqlite verify_password isoformat db1
                   "ABCDEFGHIJKLMNOP" "alice" "secret" code0
                   (mk_datetime (T0 + days 30) None) alice (T0 + days 1)
                   (T0 + days 30)
                   eq_refl eq_refl eq_refl eq_refl _ eq_refl eq_refl eq_refl) _);
    vm_compute; discriminate.
Defined.

(** Witness of [signup_success]: bob registers. *)
Lemma signup_success_witness :
  find_username "bob" db1 = None /\
  run_request (signup aiosqlite hash_password "bob" "hunter2") T0 [] db1 =
    (Return ("User Created Successfully", 2),
     with_user (User.mk 2 "bob" "hash:hunter2" false None) db1).
Proof.
  split; [reflexivity|].
  exact (proj1 (signup_success aiosqlite hash_password db1 "bob" "hunter2" T0 eq_refl)).
Defined.

(** Witness of [signup_username_taken]: alice registers again. *)
Lemma signup_username_taken_witness :
  find_username "alice" db1 = Some alice /\
  run_request (signup aiosqlite hash_password "alice" "other") T0 [] db1 =
    (Raise (HTTPException 409 "Username already exists"), db1).
Proof.
  split; [reflexivity|].
  exact (proj1 (signup_username_taken aiosqlite hash_password db1 "alice" "other" alice T0
                  eq_refl)).
Defined.

(** Witness of [signup_then_login]: bob registers and logs in. *)
Lemma signup_then_login_witness :
  verify_password "hunter2" (hash_password "hunter2") = true /\
  exists user_id d',
    run_request (signup aiosqlite hash_password "bob" "hunter2") T0 [] db1 =
      (Return ("User Created Successfully", user_id), d') /\
    run_request (login_as "bob" "hunter2") (T0 + days 1) [] d' =
      (Return (JSONResponse 403
                 "Account not activated. Please enter activation code." user_id),
       d').
Proof.
  split; [reflexivity|].
  destruct (signup_then_login aiosqlite hash_password verify_password isoformat db1 "bob"
              "hunter2" T0 (T0 + days 1) eq_refl eq_refl)
    as (user_id & d' & H1 & H2 & _).
  exists user_id, d'. split; assumption.
Defined.

(** Witness of [generate_multiple_codes_none]: a batch of minus three. *)
Lemma generate_multiple_codes_none_witness :
  -3 <= 0 /\
  run_request (generate_multiple_codes aiosqlite stuck_draws ticks (-3) 30) T0 [] db1 =
    (Return [], db1).
Proof.
  split; [vm_compute; discriminate|].
  refine (generate_multiple_codes_none aiosqlite stuck_draws ticks (-3) 30 T0 [] db1 _).
  vm_compute. discriminate.
Defined.

(** Witness of [generate_multiple_codes_partial]: a batch of three with a
    random source that repeats itself stores one code and fails. *)
Lemma generate_multiple_codes_partial_witness :
  generate_code (stuck_draws 1) 16 = generate_code (stuck_draws 0) 16 /\
  exists msg,
    run_request (generate_multiple_codes aiosqlite stuck_draws ticks 3 30) T0 [] db0 =
      (Raise (HTTPException 500 msg),
       with_code (created_code (stuck_draws 0%nat) 30 T0 db0) db0).
Proof.
  split; [reflexivity|].
  refine (generate_multiple_codes_partial aiosqlite stuck_draws ticks 3 30 T0 db0 _ eq_refl _
            eq_refl eq_refl);
    vm_compute; discriminate.
Defined.

(** Witness of [list_license_codes_page]: the one stored code is the
    page of the defaults. *)
Lemma list_license_codes_page_witness :
  0 <= 100 /\ INTEGER_ok aiosqlite 100 = true /\
  run_request (list_license_codes aiosqlite negative_page 0 100) T0 [] db1 =
    (Return [code0], db1).
Proof.
  split; [vm_compute; discriminate|]. split; [reflexivity|].
  assert (G0 : 0 <= 0) by (vm_compute; discriminate).
  assert (G1 : 0 <= 100) by (vm_compute; discriminate).
  destruct (list_license_codes_page aiosqlite negative_page 0 100 T0 db1
              G0 G1 eq_refl eq_refl)
    as (page & H1 & _ & _ & H2 & _).
  rewrite H1. f_equal. f_equal. apply H2; [reflexivity|vm_compute; discriminate].
Defined.

(** Witness of [update_countdown_parts]: a day, an hour, a minute and a
    second before the expiration. *)
Lemma update_countdown_parts_witness :
  fromisoformat "2025-01-31T00:00:00" = Return (mk_datetime (T0 + days 30) None) /\
  exists dd hh mm ss,
    update_countdown fromisoformat "2025-01-31T00:00:00"
      (T0 + days 29 - 3661 * 1000000) =
      "Time left: " ++ string_of_Z dd ++ "d " ++ string_of_Z hh ++ "h "
      ++ string_of_Z mm ++ "m " ++ string_of_Z ss ++ "s" /\
    ((dd * 24 + hh) * 60 + mm) * 60 + ss = 86400 + 3661.
Proof.
  split; [reflexivity|].
  destruct (proj1 (update_countdown_parts fromisoformat "2025-01-31T00:00:00"
                     (mk_datetime (T0 + days 30) None)
                     (T0 + days 29 - 3661 * 1000000) eq_refl eq_refl))
    as (dd & hh & mm & ss & H1 & _ & _ & _ & _ & H2);
    [vm_compute; reflexivity|].
  exists dd, hh, mm, ss. split; [exact H1|]. rewrite H2. reflexivity.
Defined.

(** Witness of [update_countdown_unknown]: the expiration a grant key
    gives, with its offset. *)
Lemma update_countdown_unknown_witness :
  fromisoformat "2025-01-31T00:00:00+00:00"
    = Return (mk_datetime (T0 + days 30) (Some UTC)) /\
  update_countdown fromisoformat "2025-01-31T00:00:00+00:00" T0
    = "Unknown expiration".
Proof.
  split; [reflexivity|].
  refine (update_countdown_unknown fromisoformat "2025-01-31T00:00:00+00:00" T0 _).
  left. eexists. split; reflexivity.
Defined.

(** Witness of [expired_login_then_dialog]: alice logs in the day after her
    expiration, and once more. *)
Lemma expired_login_then_dialog_witness :
  lower "Subscription expired. Please renew your license."
    = "subscription expired. please renew your license." /\
  login_action_response lower " alice"
    (login_http (fst (run_request (login_as "alice" "secret") (T0 + days 31) [] db2)))
    = ErrorLabel "Subscription expired. Please renew your license." /\
  login_action_response lower " alice"
    (login_http
       (fst (run_request (login_as "alice" "secret") (T0 + days 32) []
               (snd (run_request (login_as "alice" "secret") (T0 + days 31) [] db2)))))
    = LicenseDialog " alice" 1.
Proof.
  split; [reflexivity|].
  refine (expired_login_then_dialog aiosqlite verify_password isoformat lower db2
            "alice" "secret" " alice" alice_active
            (mk_datetime (T0 + days 30) None) (T0 + days 31) (T0 + days 32)
            eq_refl eq_refl eq_refl eq_refl eq_refl eq_refl _ _).
  - vm_compute. reflexivity.
  - discriminate.
Defined.

(** Witness of [center_offset_fits]: the activation dialog, 400 pixels
    wide, on a screen of 1920. *)
Lemma center_offset_fits_witness :
  0 <= 400 <= 1920 /\
  0 <= center_offset 1920 400 /\ center_offset 1920 400 + 400 <= 1920.
Proof.
  split; [split; vm_compute; discriminate|].
  destruct (proj1 (center_offset_fits 1920 400)) as (H1 & H2 & _).
  - split; vm_compute; discriminate.
  - split; assumption.
Defined.

